(** * audrino-practica: the Ohm's-law calculators and the auto-commit watcher

    A shallow embedding of

    - [ley-ohm-calculadora.py] and [ley-ohm-desktop.py]: the three
      calculators and the factory [FabricaCalculadoraOhm];
    - [auto-git-commit.py]: the watchdog handler [GitAutoCommit], its
      publisher [stage_commit_and_push] and the script's main block.

    Python [str] values are [string]s (the UTF-8 bytes of the text), Python
    [float]s are binary64 primitive floats, a call that may raise returns a
    [Res], and the auto-commit script runs in a state-and-exception monad
    over the repository, the standard output and the list of GitPython
    calls issued so far. *)

From Stdlib Require Import String Ascii List Bool Arith ZArith Lia PrimFloat.
Import ListNotations.
Open Scope string_scope.
Open Scope list_scope.

(** ** Python values shared by the scripts *)

(** An instance of a Python exception class deriving from [Exception]:
    the class name and the text [str(e)] gives. *)
Record Exception : Type := mkException {
  exc_class : string;
  exc_str : string
}.

(** The result of evaluating a Python expression or statement. *)
Inductive Res (A : Type) : Type :=
| Ok (a : A)
| Raise (e : Exception).

Arguments Ok {A} a.
Arguments Raise {A} e.

Definition is_ok {A : Type} (r : Res A) : bool :=
  match r with
  | Ok _ => true
  | Raise _ => false
  end.

Definition ValueError (msg : string) : Exception :=
  mkException "ValueError" msg.

Definition ZeroDivisionError (msg : string) : Exception :=
  mkException "ZeroDivisionError" msg.

(** [a / b] on two Python floats: [float_div] of CPython raises when the
    divisor compares equal to zero (so for [0.0] and [-0.0]) and otherwise
    divides in binary64. *)
Definition float_truediv (a b : float) : Res float :=
  if PrimFloat.eqb b PrimFloat.zero
  then Raise (ZeroDivisionError "float division by zero")
  else Ok (PrimFloat.div a b).

(** [a * b] on two Python floats never raises. *)
Definition float_mul (a b : float) : Res float :=
  Ok (PrimFloat.mul a b).

(** [needle in hay] on two Python strings. *)
Fixpoint contains (needle hay : string) : bool :=
  if String.prefix needle hay then true
  else match hay with
       | EmptyString => false
       | String _ hay' => contains needle hay'
       end.

(** [any(f(x) for x in xs)]. *)
Definition any {A : Type} (f : A -> bool) (xs : list A) : bool :=
  existsb f xs.

(** ** ley-ohm-calculadora.py *)

Module Calculadora.

(** The instances of the three concrete subclasses of [CalculadoraOhm];
    the classes have no fields. *)
Inductive CalculadoraOhm : Type :=
| CalculadorVoltaje
| CalculadorCorriente
| CalculadorResistencia.

(** [calculadora.calcular(valor1, valor2)], dispatched on the class. *)
Definition calcular (c : CalculadoraOhm) (valor1 valor2 : float) : Res float :=
  match c with
  | CalculadorVoltaje => float_mul valor1 valor2
  | CalculadorCorriente => float_truediv valor1 valor2
  | CalculadorResistencia => float_truediv valor1 valor2
  end.

(** [FabricaCalculadoraOhm.crear_calculadora(tipo)]. *)
Definition crear_calculadora (tipo : string) : Res CalculadoraOhm :=
  if String.eqb tipo "voltaje" then Ok CalculadorVoltaje
  else if String.eqb tipo "corriente" then Ok CalculadorCorriente
  else if String.eqb tipo "resistencia" then Ok CalculadorResistencia
  else Raise (ValueError "Tipo de calculadora no válido").

End Calculadora.

(** ** ley-ohm-desktop.py: the factory of the desktop version *)

Module Desktop.

Import Calculadora.

(** [FabricaCalculadoraOhm.crear_calculadora(tipo)] of the Tk version,
    which is fed the capitalised labels of its radio buttons. *)
Definition crear_calculadora (tipo : string) : Res CalculadoraOhm :=
  if String.eqb tipo "Voltaje" then Ok CalculadorVoltaje
  else if String.eqb tipo "Corriente" then Ok CalculadorCorriente
  else if String.eqb tipo "Resistencia" then Ok CalculadorResistencia
  else Raise (ValueError "Tipo de calculadora no válido").

End Desktop.

(** ** auto-git-commit.py *)

Module AutoGitCommit.

(** *** Configuration constants of the script *)

Definition COMMIT_MESSAGE : string := "Auto-commit: Actualización de código".
Definition GITHUB_REMOTE : string := "origin".
Definition BRANCH_NAME : string := "main".
Definition IGNORED_EXTENSIONS : list string :=
  [".git"; ".gitignore"; ".vscode"; ".idea"].

(** *** watchdog events *)

Inductive EventType : Type :=
| EVENT_TYPE_MOVED
| EVENT_TYPE_DELETED
| EVENT_TYPE_CREATED
| EVENT_TYPE_MODIFIED
| EVENT_TYPE_CLOSED
| EVENT_TYPE_OPENED.

Definition is_modified (t : EventType) : bool :=
  match t with
  | EVENT_TYPE_MODIFIED => true
  | _ => false
  end.

(** A [FileSystemEvent] as the handler reads it. *)
Record FileSystemEvent : Type := mkEvent {
  event_type : EventType;
  src_path : string;
  is_directory : bool
}.

(** *** The GitPython calls the script makes

    The library is not part of the repository: its calls are the fields
    of a record, each a function of the repository state that returns
    normally or raises and leaves a new state. [history] is the list of
    commit messages reachable from HEAD, newest first; the script
    never reads it, the theorems about the local history do. *)
Record GitPython : Type := mkGitPython {
  Repo : Type;
  Remote : Type;
  Repo_open : string -> Res Repo;                        (* Repo(path) *)
  git_add_A : Repo -> Res unit * Repo;                   (* repo.git.add(A=True) *)
  index_commit : string -> Repo -> Res unit * Repo;      (* repo.index.commit(msg) *)
  repo_remote : string -> Repo -> Res Remote;            (* repo.remote(name=...) *)
  remote_push : Remote -> string -> Repo -> Res unit * Repo;  (* origin.push(branch) *)
  history : Repo -> list string
}.

(** One entry per call into GitPython, in the order issued. *)
Inductive GitCall : Type :=
| GitAdd_A
| IndexCommit (message : string)
| RepoRemote (name : string)
| RemotePush (branch : string).


Section Script.

Variable G : GitPython.

(** What a run of the script can change: the repository behind the
    module-level [repo], what was printed (one entry per [print] call,
    whose text can span several lines), the GitPython calls. *)
Record World : Type := mkWorld {
  repo : Repo G;
  stdout : list string;
  calls : list GitCall
}.

(** Statements: they return or raise, and leave a new world. *)
Definition M (A : Type) : Type := World -> Res A * World.

Definition ret {A : Type} (a : A) : M A := fun w => (Ok a, w).

Definition bind {A B : Type} (m : M A) (k : A -> M B) : M B :=
  fun w =>
    match m w with
    | (Ok a, w') => k a w'
    | (Raise e, w') => (Raise e, w')
    end.

(** [try: body  except Exception as e: handler(e)]. *)
Definition try_except {A : Type} (body : M A) (handler : Exception -> M A) : M A :=
  fun w =>
    match body w with
    | (Ok a, w') => (Ok a, w')
    | (Raise e, w') => handler e w'
    end.

Definition print (line : string) : M unit :=
  fun w => (Ok tt, mkWorld (repo w) (stdout w ++ [line]) (calls w)).

(** A GitPython call that may change the repository. *)
Definition invoke (c : GitCall) (op : Repo G -> Res unit * Repo G) : M unit :=
  fun w =>
    let (r, repo') := op (repo w) in
    (r, mkWorld repo' (stdout w) (calls w ++ [c])).

(** A GitPython call that only reads the repository. *)
Definition query {A : Type} (c : GitCall) (op : Repo G -> Res A) : M A :=
  fun w => (op (repo w), mkWorld (repo w) (stdout w) (calls w ++ [c])).

End Script.

Arguments mkWorld {G} repo stdout calls.
Arguments repo {G} w.
Arguments stdout {G} w.
Arguments calls {G} w.
Arguments ret {G A} a.
Arguments bind {G A B} m k.
Arguments try_except {G A} body handler.
Arguments print {G} line.
Arguments invoke {G} c op.
Arguments query {G A} c op.

Declare Scope py_scope.
Delimit Scope py_scope with py.
Notation "x <- m ;; k" := (bind m (fun x => k))
  (at level 61, m at next level, right associativity) : py_scope.
Notation "m ;; k" := (bind m (fun _ => k))
  (at level 61, right associativity) : py_scope.
Open Scope py_scope.

Section Handler.

Variable G : GitPython.

(** The suite of the [try] statement of [stage_commit_and_push]. *)
Definition try_suite : M G unit :=
  invoke GitAdd_A (git_add_A G) ;;
  invoke (IndexCommit COMMIT_MESSAGE) (index_commit G COMMIT_MESSAGE) ;;
  origin <- query (RepoRemote GITHUB_REMOTE) (repo_remote G GITHUB_REMOTE) ;;
  invoke (RemotePush BRANCH_NAME) (remote_push G origin BRANCH_NAME) ;;
  print "Cambios subidos a GitHub exitosamente.".

(** [GitAutoCommit.stage_commit_and_push]. *)
Definition stage_commit_and_push : M G unit :=
  try_except try_suite
    (fun e => print ("Error al subir cambios: " ++ exc_str e)).

(** [GitAutoCommit.on_modified]. The extension [os.path.splitext]
    returns is bound and never read. *)
Definition on_modified (event : FileSystemEvent) : M G unit :=
  if negb (is_directory event) then
    let file_path := src_path event in
    if negb (any (fun ignored => contains ignored file_path) IGNORED_EXTENSIONS) then
      print ("Archivo modificado: " ++ file_path) ;;
      stage_commit_and_push
    else ret tt
  else ret tt.

(** The handlers [GitAutoCommit] inherits from
    [FileSystemEventHandler]: they do nothing. *)
Definition on_any_event (event : FileSystemEvent) : M G unit := ret tt.
Definition on_moved (event : FileSystemEvent) : M G unit := ret tt.
Definition on_created (event : FileSystemEvent) : M G unit := ret tt.
Definition on_deleted (event : FileSystemEvent) : M G unit := ret tt.
Definition on_closed (event : FileSystemEvent) : M G unit := ret tt.
Definition on_opened (event : FileSystemEvent) : M G unit := ret tt.

(** [FileSystemEventHandler.dispatch], inherited. *)
Definition dispatch (event : FileSystemEvent) : M G unit :=
  on_any_event event ;;
  match event_type event with
  | EVENT_TYPE_MOVED => on_moved event
  | EVENT_TYPE_DELETED => on_deleted event
  | EVENT_TYPE_CREATED => on_created event
  | EVENT_TYPE_MODIFIED => on_modified event
  | EVENT_TYPE_CLOSED => on_closed event
  | EVENT_TYPE_OPENED => on_opened event
  end.

(** The observer thread: it takes the queued events one at a time and
    dispatches each to the handler. An exception that leaves a
    handler ends the thread, and the events behind it stay
    undelivered. *)
Fixpoint dispatch_events (events : list FileSystemEvent) : M G unit :=
  match events with
  | [] => ret tt
  | event :: rest => dispatch event ;; dispatch_events rest
  end.

End Handler.

(** *** The main block of the script *)

(** One round of [while True: time.sleep(1)] in the main thread, with
    the events the observer thread is handed in the meantime: the sleep
    returns, or Ctrl-C raises [KeyboardInterrupt] in it (the events are
    then those handed over until the process ends). A
    [KeyboardInterrupt] right after the first one is a further Ctrl-C
    that arrives while [observer.stop()] or [observer.join()] runs. *)
Inductive Tick : Type :=
| Slept (delivered : list FileSystemEvent)
| KeyboardInterrupt (delivered : list FileSystemEvent).

Definition is_interrupt (t : Tick) : bool :=
  match t with
  | Slept _ => false
  | KeyboardInterrupt _ => true
  end.



Section Main.

Variable G : GitPython.

(** watchdog's [observer.schedule(handler, path, recursive)] and
    [observer.start()]; both can raise (a path that cannot be
    watched, no watches left). *)
Variable observer_schedule : string -> bool -> Res unit.
Variable observer_start : Res unit.

(** The status the interpreter ends with when a [KeyboardInterrupt]
    reaches the top level. It depends on the platform and on the
    version of the interpreter, and it is never 0. *)
Variable interrupt_status : Z.

(** The observer thread handles the events it is handed, unless an
    exception has ended it before. The flag says whether the thread
    is alive. *)
Definition deliver (alive : bool) (events : list FileSystemEvent)
    (w : World G) : bool * World G :=
  if alive then
    match dispatch_events G events w with
    | (Ok _, w') => (true, w')
    | (Raise _, w') => (false, w')
    end
  else (false, w).



End Main.

End AutoGitCommit.

(** ** A small repository to run the script on

    A concrete [GitPython]: paths with pending changes, the index, the
    local commits, the configured remotes and whether the network
    answers. [index_commit] records a commit whatever the index holds, as
    [IndexFile.commit] does. *)

Module SimpleGit.

Import AutoGitCommit.

Record State : Type := mkState {
  worktree : list string;                  (* changed or untracked, not staged *)
  staged : list string;                    (* staged in the index *)
  commits : list (string * list string);   (* newest first: message, paths *)
  remotes : list string;                   (* configured remote names *)
  reachable : bool;                        (* the remote answers *)
  pushed : nat                             (* commits the remote branch has *)
}.

Definition add_A (r : State) : Res unit * State :=
  (Ok tt,
   mkState [] (staged r ++ worktree r) (commits r) (remotes r)
           (reachable r) (pushed r)).

Definition commit (message : string) (r : State) : Res unit * State :=
  (Ok tt,
   mkState (worktree r) [] ((message, staged r) :: commits r) (remotes r)
           (reachable r) (pushed r)).

Definition remote (name : string) (r : State) : Res string :=
  if existsb (String.eqb name) (remotes r) then Ok name
  else Raise (ValueError ("Remote named '" ++ name ++ "' didn't exist")).

Definition push (origin branch : string) (r : State) : Res unit * State :=
  if reachable r then
    (Ok tt,
     mkState (worktree r) (staged r) (commits r) (remotes r)
             (reachable r) (List.length (commits r)))
  else
    (Raise (mkException "GitCommandError"
              ("unable to access '" ++ origin ++ "'")), r).

(** The repositories on disk: [disk path] is the repository at [path],
    if there is one. *)
Definition open (disk : string -> option State) (path : string) : Res State :=
  match disk path with
  | Some r => Ok r
  | None => Raise (mkException "NoSuchPathError" path)
  end.

Definition git (disk : string -> option State) : GitPython :=
  mkGitPython State string (open disk) add_A commit remote push
              (fun r => map fst (commits r)).

(** A clean clone with one commit and the remote [origin]. *)
Definition clean (net : bool) : State :=
  mkState [] [] [("Initial commit", ["README.md"])] ["origin"] net 1.

(** The same clone after [src/app.py] was edited. *)
Definition dirty (net : bool) : State :=
  mkState ["src/app.py"] [] [("Initial commit", ["README.md"])] ["origin"] net 1.

Definition no_disk : string -> option State := fun _ => None.


(** The clone after [src/a.py] and [src/b.py] were both edited. *)
Definition two_dirty (net : bool) : State :=
  mkState ["src/a.py"; "src/b.py"] [] [("Initial commit", ["README.md"])]
          ["origin"] net 1.

(** The world of a script that has opened [r] and done nothing yet. *)
Definition world (r : State) : World (git no_disk) :=
  @mkWorld (git no_disk) r [] [].

Definition modified_file (path : string) : FileSystemEvent :=
  mkEvent EVENT_TYPE_MODIFIED path false.

Definition unreachable : Exception :=
  mkException "GitCommandError" "unable to access 'origin'".

End SimpleGit.

(** ** Vocabulary of the specification, read off the script *)

Module Publisher.

Import AutoGitCommit.

(** [pattern] occurs in [path] as a substring. *)
Definition substring_of (pattern path : string) : Prop :=
  exists before after : string, path = (before ++ pattern ++ after)%string.

(** The Filter: the two guards [on_modified] puts before the publisher,
    over any ignore set. *)
Definition Filter (ignore_set : list string) (event : FileSystemEvent) : bool :=
  negb (is_directory event)
  && negb (any (fun ignored => contains ignored (src_path event)) ignore_set).

(** The events that reach the publisher: kind "modified" and accepted by
    the Filter under the configured ignore set. *)
Definition triggers (event : FileSystemEvent) : bool :=
  is_modified (event_type event) && Filter IGNORED_EXTENSIONS event.

(** The three steps of a publish; looking the remote up belongs to the
    push. *)
Inductive Step : Type :=
| STAGE
| COMMIT
| PUSH.

(** The GitPython calls of a complete publish, in order. *)
Definition publish_calls : list GitCall :=
  [GitAdd_A; IndexCommit COMMIT_MESSAGE; RepoRemote GITHUB_REMOTE;
   RemotePush BRANCH_NAME].

(** A publish cycle starts with exactly one [git add -A]. *)
Definition is_stage (c : GitCall) : bool :=
  match c with
  | GitAdd_A => true
  | _ => false
  end.

Definition publish_cycles (trace : list GitCall) : nat :=
  List.length (filter is_stage trace).

(** The outcome of a publish. The script returns [None] and tells the
    outcome apart on standard output only: one line, the success line or
    the error line. *)
Record PublishOutcome : Type := mkOutcome {
  succeeded : bool;
  errorMessage : option string
}.

Definition SUCCESS_LINE : string := "Cambios subidos a GitHub exitosamente.".

Definition logged (o : PublishOutcome) : string :=
  match errorMessage o with
  | Some message => message
  | None => SUCCESS_LINE
  end.

Section Steps.

Variable G : GitPython.

(** The repository after the stage step of a publish started in [w], and
    whether that step returned normally; likewise for the commit. *)
Definition after_add (w : World G) : Repo G := snd (git_add_A G (repo w)).
Definition add_ok (w : World G) : bool := is_ok (fst (git_add_A G (repo w))).
Definition after_commit (w : World G) : Repo G :=
  snd (index_commit G COMMIT_MESSAGE (after_add w)).
Definition commit_ok (w : World G) : bool :=
  is_ok (fst (index_commit G COMMIT_MESSAGE (after_add w))).
Definition lookup_ok (w : World G) : bool :=
  is_ok (repo_remote G GITHUB_REMOTE (after_commit w)).

(** Step [s] of a publish started in [w] is reached and raises [e]. *)
Inductive StepRaises (w : World G) (e : Exception) : Step -> Prop :=
| stage_raises :
    fst (git_add_A G (repo w)) = Raise e ->
    StepRaises w e STAGE
| commit_raises :
    add_ok w = true ->
    fst (index_commit G COMMIT_MESSAGE (after_add w)) = Raise e ->
    StepRaises w e COMMIT
| lookup_raises :
    add_ok w = true -> commit_ok w = true ->
    repo_remote G GITHUB_REMOTE (after_commit w) = Raise e ->
    StepRaises w e PUSH
| push_raises (origin : Remote G) :
    add_ok w = true -> commit_ok w = true ->
    repo_remote G GITHUB_REMOTE (after_commit w) = Ok origin ->
    fst (remote_push G origin BRANCH_NAME (after_commit w)) = Raise e ->
    StepRaises w e PUSH.

(** What a publish started in [w] reports. *)
Definition publish_outcome (w : World G) : PublishOutcome :=
  match fst (try_suite G w) with
  | Ok _ => mkOutcome true None
  | Raise e => mkOutcome false (Some ("Error al subir cambios: " ++ exc_str e)%string)
  end.

(** The commit step extends the history by the commit it records, and a
    push, failed or not, leaves the local history alone. *)
Definition commit_records : Prop :=
  forall (message : string) (r : Repo G),
    fst (index_commit G message r) = Ok tt ->
    history G (snd (index_commit G message r)) = message :: history G r.

Definition push_keeps_history : Prop :=
  forall (origin : Remote G) (branch : string) (r : Repo G),
    history G (snd (remote_push G origin branch r)) = history G r.

End Steps.

End Publisher.

(** ** ley-ohm-calculadora.py: the console program *)

Module Consola.

Import Calculadora.

(** What the program writes: [print] writes a line, [input] its
    prompt. *)
Inductive Output : Type :=
| Line (text : string)
| Prompt (text : string).

(** The terminal: the lines still to be read and what was written. *)
Record Console : Type := mkConsole {
  stdin : list string;
  stdout : list Output
}.

Definition EOFError : Exception :=
  mkException "EOFError" "EOF when reading a line".

(** Statements of the program. *)
Definition C (A : Type) : Type := Console -> Res A * Console.

Definition ret {A : Type} (a : A) : C A := fun c => (Ok a, c).

Definition bind {A B : Type} (m : C A) (k : A -> C B) : C B :=
  fun c =>
    match m c with
    | (Ok a, c') => k a c'
    | (Raise e, c') => (Raise e, c')
    end.

(** An expression that touches no terminal. *)
Definition lift {A : Type} (r : Res A) : C A := fun c => (r, c).

Definition print (text : string) : C unit :=
  fun c => (Ok tt, mkConsole (stdin c) (stdout c ++ [Line text])).

(** [input(prompt)]: at the end of the input it raises [EOFError]. *)
Definition input (prompt : string) : C string :=
  fun c =>
    match stdin c with
    | [] => (Raise EOFError, mkConsole [] (stdout c ++ [Prompt prompt]))
    | line :: rest => (Ok line, mkConsole rest (stdout c ++ [Prompt prompt]))
    end.

Notation "x <- m ;; k" := (bind m (fun x => k))
  (at level 61, m at next level, right associativity).
Notation "m ;; k" := (bind m (fun _ => k))
  (at level 61, right associativity).

Definition NEWLINE : string := String (ascii_of_nat 10) EmptyString.

(** [mostrar_menu]. *)
Definition mostrar_menu : C unit :=
  print (NEWLINE ++ "Calculadora de la Ley de Ohm") ;;
  print "1. Calcular Voltaje" ;;
  print "2. Calcular Corriente" ;;
  print "3. Calcular Resistencia" ;;
  print "4. Salir".

Section Program.

(** The built-ins the program leans on: [float(s)] on a string, [None]
    where it raises [ValueError], and the format [f"{x:.2f}"]. *)
Variable float_of_string : string -> option float.
Variable format_2f : float -> string.

(** [obtener_entrada]: one round of its [while True] per line read. *)
Fixpoint obtener_entrada_from (mensaje : string) (lines : list string)
    (out : list Output) : Res float * Console :=
  match lines with
  | [] => (Raise EOFError, mkConsole [] (out ++ [Prompt mensaje]))
  | line :: rest =>
      match float_of_string line with
      | Some valor => (Ok valor, mkConsole rest (out ++ [Prompt mensaje]))
      | None =>
          obtener_entrada_from mensaje rest
            ((out ++ [Prompt mensaje])
             ++ [Line "Por favor, ingrese un número válido."])
      end
  end.

Definition obtener_entrada (mensaje : string) : C float :=
  fun c => obtener_entrada_from mensaje (stdin c) (stdout c).

(** The branch of [main] for the options 1, 2 and 3. *)
Definition calcular_opcion (opcion : string) : C unit :=
  args <-
    (if String.eqb opcion "1" then
       valor1 <- obtener_entrada "Ingrese la corriente (en amperios): " ;;
       valor2 <- obtener_entrada "Ingrese la resistencia (en ohmios): " ;;
       ret ("voltaje", valor1, valor2)
     else if String.eqb opcion "2" then
       valor1 <- obtener_entrada "Ingrese el voltaje (en voltios): " ;;
       valor2 <- obtener_entrada "Ingrese la resistencia (en ohmios): " ;;
       ret ("corriente", valor1, valor2)
     else
       valor1 <- obtener_entrada "Ingrese el voltaje (en voltios): " ;;
       valor2 <- obtener_entrada "Ingrese la corriente (en amperios): " ;;
       ret ("resistencia", valor1, valor2)) ;;
  let '(tipo, valor1, valor2) := args in
  calculadora <- lift (crear_calculadora tipo) ;;
  resultado <- lift (calcular calculadora valor1 valor2) ;;
  print ("El resultado del cálculo de " ++ tipo ++ " es: "
         ++ format_2f resultado).

(** One round of the [while True] of [main]; [true] is its [break]. *)
Definition iteration : C bool :=
  mostrar_menu ;;
  opcion <- input "Seleccione una opción (1-4): " ;;
  if String.eqb opcion "4" then
    print "Gracias por usar la calculadora de la Ley de Ohm. ¡Hasta luego!" ;;
    ret true
  else if existsb (String.eqb opcion) ["1"; "2"; "3"] then
    calcular_opcion opcion ;; ret false
  else
    print "Opción no válida. Por favor, seleccione una opción del 1 al 4." ;;
    ret false.

(** The loop of [main], for at most [fuel] rounds; [None] when the
    rounds do not suffice. *)
Fixpoint main_loop (fuel : nat) (c : Console) : option (Res unit * Console) :=
  match fuel with
  | O => None
  | S fuel' =>
      match iteration c with
      | (Raise e, c') => Some (Raise e, c')
      | (Ok true, c') => Some (Ok tt, c')
      | (Ok false, c') => main_loop fuel' c'
      end
  end.

(** [main]: every round reads a line, so one round more than there are
    lines is enough. *)
Definition main (c : Console) : option (Res unit * Console) :=
  main_loop (S (List.length (stdin c))) c.

End Program.

End Consola.

(** ** Handlers that catch by class *)

(** [isinstance(e, ValueError)], on the classes these programs raise. *)
Definition is_ValueError (e : Exception) : bool :=
  String.eqb (exc_class e) "ValueError".

(** ** ley-ohm-desktop.py: the Tk application *)

Module Aplicacion.

Import Calculadora.

(** The widgets of [AplicacionLeyOhm] by what they hold: the text of
    the combobox (it is editable) and of the two entries, and the texts
    of the three labels. *)
Record AplicacionLeyOhm : Type := mkAplicacion {
  tipo_calculo : string;
  etiqueta1 : string;
  entrada1 : string;
  etiqueta2 : string;
  entrada2 : string;
  resultado : string
}.

Definition resultado_config (self : AplicacionLeyOhm) (text : string)
    : AplicacionLeyOhm :=
  mkAplicacion (tipo_calculo self) (etiqueta1 self) (entrada1 self)
               (etiqueta2 self) (entrada2 self) text.

(** [AplicacionLeyOhm.actualizar_etiquetas]. *)
Definition actualizar_etiquetas (self : AplicacionLeyOhm) : AplicacionLeyOhm :=
  let tipo := tipo_calculo self in
  let labels :=
    if String.eqb tipo "Voltaje" then ("Corriente (A):", "Resistencia (Ω):")
    else if String.eqb tipo "Corriente" then ("Voltaje (V):", "Resistencia (Ω):")
    else ("Voltaje (V):", "Corriente (A):") in
  mkAplicacion (tipo_calculo self) (fst labels) (entrada1 self)
               (snd labels) (entrada2 self) (resultado self).

Section App.

(** [float(s)] on a string ([None] where it raises [ValueError]), the
    text of that error, and the format [f"{x:.2f}"]. *)
Variable float_of_string : string -> option float.
Variable float_error : string -> string.
Variable format_2f : float -> string.

Definition float_str (s : string) : Res float :=
  match float_of_string s with
  | Some x => Ok x
  | None => Raise (ValueError (float_error s))
  end.

Definition and_then {A B : Type} (r : Res A) (k : A -> Res B) : Res B :=
  match r with
  | Ok a => k a
  | Raise e => Raise e
  end.

(** The [try] suite of [AplicacionLeyOhm.calcular]: the text it puts in
    the result label, unless a statement raises. *)
Definition calcular_suite (self : AplicacionLeyOhm) : Res string :=
  let tipo := tipo_calculo self in
  and_then (float_str (entrada1 self)) (fun valor1 =>
  and_then (float_str (entrada2 self)) (fun valor2 =>
  and_then (Desktop.crear_calculadora tipo) (fun calculadora =>
  and_then (Calculadora.calcular calculadora valor1 valor2) (fun resultado =>
  let unidad :=
    if String.eqb tipo "Voltaje" then "V"
    else if String.eqb tipo "Corriente" then "A" else "Ω" in
  Ok (tipo ++ ": " ++ format_2f resultado ++ " " ++ unidad)%string)))).

(** [AplicacionLeyOhm.calcular]: the two [except] clauses in their
    order. *)
Definition calcular (self : AplicacionLeyOhm) : AplicacionLeyOhm :=
  match calcular_suite self with
  | Ok text => resultado_config self text
  | Raise e =>
      if is_ValueError e
      then resultado_config self "Error: Ingrese valores numéricos válidos"
      else resultado_config self ("Error: " ++ exc_str e)
  end.

End App.

End Aplicacion.

(** ** ley-ohm-django.py: the view [calcular]

    The classes and the factory of the file are those of
    [ley-ohm-calculadora.py], line for line. *)

Module Vista.

Import Calculadora.

(** A request by what the view reads: the method and
    [request.POST.get(key)]. *)
Record HttpRequest : Type := mkRequest {
  method : string;
  POST_get : string -> option string
}.

(** A [JsonResponse]: the status and the one pair of its body. *)
Record JsonResponse : Type := mkJsonResponse {
  status : Z;
  key : string;
  value : string
}.

Section View.

Variable float_of_string : string -> option float.
Variable float_error : string -> string.
Variable format_2f : float -> string.

(** [float(request.POST.get(key, 0))]: [float(0)] when the key is
    absent. *)
Definition float_param (request : HttpRequest) (name : string) : Res float :=
  match POST_get request name with
  | Some s => Aplicacion.float_str float_of_string float_error s
  | None => Ok PrimFloat.zero
  end.

(** The factory on what [request.POST.get('tipo')] returns: [None]
    equals none of the three names. *)
Definition crear_calculadora_tipo (tipo : option string) : Res CalculadoraOhm :=
  match tipo with
  | Some t => crear_calculadora t
  | None => Raise (ValueError "Tipo de calculadora no válido")
  end.

(** The view [calcular]. *)
Definition calcular (request : HttpRequest) : Res JsonResponse :=
  if String.eqb (method request) "POST" then
    let tipo := POST_get request "tipo" in
    Aplicacion.and_then (float_param request "valor1") (fun valor1 =>
    Aplicacion.and_then (float_param request "valor2") (fun valor2 =>
    match
      Aplicacion.and_then (crear_calculadora_tipo tipo) (fun calculadora =>
      Calculadora.calcular calculadora valor1 valor2)
    with
    | Ok resultado => Ok (mkJsonResponse 200 "resultado" (format_2f resultado))
    | Raise e =>
        if is_ValueError e
        then Ok (mkJsonResponse 400 "error" (exc_str e))
        else Raise e
    end))
  else Ok (mkJsonResponse 405 "error" "Método no permitido").

End View.

End Vista.

(** ** More vocabulary for the watcher and the console program *)

Module Accounting.

Import AutoGitCommit Publisher.

Section Laws.

Variable G : GitPython.

(** The push of a publish started in [w] is reached and returns
    normally. *)
Definition push_ok (w : World G) : bool :=
  match repo_remote G GITHUB_REMOTE (after_commit G w) with
  | Ok origin =>
      is_ok (fst (remote_push G origin BRANCH_NAME (after_commit G w)))
  | Raise _ => false
  end.

(** Staging leaves the history alone. *)
Definition add_keeps_history : Prop :=
  forall r : Repo G, history G (snd (git_add_A G r)) = history G r.

(** Staging and committing always return normally. *)
Definition stage_and_commit_total : Prop :=
  forall r : Repo G,
    is_ok (fst (git_add_A G r)) = true /\
    forall message : string, is_ok (fst (index_commit G message r)) = true.

End Laws.

(** What the console program writes for the menu and the prompt of one
    round. *)
Definition MENU : list Consola.Output :=
  [Consola.Line (Consola.NEWLINE ++ "Calculadora de la Ley de Ohm");
   Consola.Line "1. Calcular Voltaje";
   Consola.Line "2. Calcular Corriente";
   Consola.Line "3. Calcular Resistencia";
   Consola.Line "4. Salir";
   Consola.Prompt "Seleccione una opción (1-4): "].

Definition INVALID_OPTION : Consola.Output :=
  Consola.Line "Opción no válida. Por favor, seleccione una opción del 1 al 4.".

Definition GOODBYE : Consola.Output :=
  Consola.Line "Gracias por usar la calculadora de la Ley de Ohm. ¡Hasta luego!".

Definition INVALID_NUMBER : Consola.Output :=
  Consola.Line "Por favor, ingrese un número válido.".

(** An option of the menu. *)
Definition is_option (line : string) : bool :=
  existsb (String.eqb line) ["1"; "2"; "3"; "4"].

(** A small [float(s)] for the runs: it knows three numerals. *)
Definition float_of_numeral (s : string) : option float :=
  if String.eqb s "12" then Some 12%float
  else if String.eqb s "4" then Some 4%float
  else if String.eqb s "0" then Some 0%float
  else None.

(** The form of a POST: the three fields as sent, [None] for a field
    left out. *)
Definition post (tipo valor1 valor2 : option string) : Vista.HttpRequest :=
  Vista.mkRequest "POST"
    (fun name =>
       if String.eqb name "tipo" then tipo
       else if String.eqb name "valor1" then valor1
       else if String.eqb name "valor2" then valor2
       else None).

Section Reading.

Import Consola.

Variable float_of_string : string -> option float.

(** What [obtener_entrada] writes when it turns down the lines [bad]
    and then asks once more. *)
Definition asked (mensaje : string) (bad : list string) : list Output :=
  flat_map (fun _ => [Prompt mensaje; INVALID_NUMBER]) bad ++ [Prompt mensaje].

(** The input left in [c'] is an end of the input in [c]. *)
Definition reads (c c' : Console) : Prop :=
  exists consumed : list string, stdin c = consumed ++ stdin c'.

(** An input line that [float] reads as zero. *)
Definition zero_line (lines : list string) : Prop :=
  exists (line : string) (x : float),
    In line lines /\ float_of_string line = Some x
    /\ PrimFloat.eqb x PrimFloat.zero = true.

Definition ZERO_DIVISION : Exception :=
  ZeroDivisionError "float division by zero".

End Reading.

End Accounting.

(** ** Vocabulary for the process and its log *)

Module Process.

Import AutoGitCommit Publisher.





End Process.

(** ** A remote that refuses the push

    [origin.push] when the remote refuses the ref, its branch having
    moved on: GitPython returns normally, the refusal is a flag in the
    [PushInfo] it returns, and the remote keeps what it had. The rest is
    the small repository. *)

Module RejectedPush.

Import AutoGitCommit SimpleGit.

Definition push_rejected (origin branch : string) (r : State)
    : Res unit * State :=
  (Ok tt, r).

Definition git : GitPython :=
  mkGitPython State string (open no_disk) add_A commit remote push_rejected
              (fun r => map fst (commits r)).

Definition world (r : State) : World git := @mkWorld git r [] [].


End RejectedPush.

(** * Properties *)

(** ** The Ohm's-law calculators *)

Section OhmProperties.

Import Calculadora.

Lemma float_truediv_raises (a b : float) :
  float_truediv a b = Raise (ZeroDivisionError "float division by zero")
  <-> PrimFloat.eqb b PrimFloat.zero = true.
Proof.
  unfold float_truediv.
  destruct (PrimFloat.eqb b PrimFloat.zero); split; intro H;
    try reflexivity; discriminate H.
Qed.

(** C9. [CalculadorCorriente.calcular(voltaje, resistencia)] raises
    [ZeroDivisionError] whenever [resistencia == 0] (and only then),
    [CalculadorResistencia.calcular(voltaje, corriente)] raises it
    whenever [corriente == 0] (and only then), and
    [CalculadorVoltaje.calcular] returns normally on every pair of
    floats. *)
Theorem calcular_zero_division (valor1 valor2 : float) :
  (PrimFloat.eqb valor2 PrimFloat.zero = true ->
     calcular CalculadorCorriente valor1 valor2
     = Raise (ZeroDivisionError "float division by zero")) /\
  (PrimFloat.eqb valor2 PrimFloat.zero = true ->
     calcular CalculadorResistencia valor1 valor2
     = Raise (ZeroDivisionError "float division by zero")) /\
  (PrimFloat.eqb valor2 PrimFloat.zero = false ->
     calcular CalculadorCorriente valor1 valor2 = Ok (PrimFloat.div valor1 valor2) /\
     calcular CalculadorResistencia valor1 valor2 = Ok (PrimFloat.div valor1 valor2)) /\
  calcular CalculadorVoltaje valor1 valor2 = Ok (PrimFloat.mul valor1 valor2).
Proof.
  repeat split.
  - intro H. now apply float_truediv_raises.
  - intro H. now apply float_truediv_raises.
  - simpl. unfold float_truediv. now rewrite H.
  - simpl. unfold float_truediv. now rewrite H.
Qed.

(** A run of C9: 12 V over 0 ohm and over -0.0 A raise, 12 V over
    4 ohm gives 3 A. *)
Lemma calcular_zero_division_witness :
  calcular CalculadorCorriente 12%float 0%float
  = Raise (ZeroDivisionError "float division by zero") /\
  calcular CalculadorResistencia 12%float (-0)%float
  = Raise (ZeroDivisionError "float division by zero") /\
  calcular CalculadorCorriente 12%float 4%float = Ok 3%float.
Proof.
  split; [| split].
  - apply (calcular_zero_division 12%float 0%float). reflexivity.
  - apply (calcular_zero_division 12%float (-0)%float). reflexivity.
  - apply (calcular_zero_division 12%float 4%float). reflexivity.
Defined.

Lemma eqb_cases (s t : string) :
  (String.eqb s t = true /\ s = t) \/ (String.eqb s t = false /\ s <> t).
Proof.
  destruct (String.eqb_spec s t); [left | right]; split; auto.
Qed.

(** C10. The command-line factory returns the voltage, current or
    resistance calculator exactly on ["voltaje"], ["corriente"],
    ["resistencia"], and raises [ValueError] on every other string;
    ["Voltaje"] is such a string, and the desktop factory accepts
    it. *)
Theorem crear_calculadora_exact (tipo : string) :
  (crear_calculadora tipo = Ok CalculadorVoltaje <-> tipo = "voltaje") /\
  (crear_calculadora tipo = Ok CalculadorCorriente <-> tipo = "corriente") /\
  (crear_calculadora tipo = Ok CalculadorResistencia <-> tipo = "resistencia") /\
  (crear_calculadora tipo = Raise (ValueError "Tipo de calculadora no válido")
     <-> tipo <> "voltaje" /\ tipo <> "corriente" /\ tipo <> "resistencia") /\
  crear_calculadora "Voltaje" = Raise (ValueError "Tipo de calculadora no válido") /\
  Desktop.crear_calculadora "Voltaje" = Ok CalculadorVoltaje /\
  Desktop.crear_calculadora "voltaje" = Raise (ValueError "Tipo de calculadora no válido").
Proof.
  unfold crear_calculadora.
  destruct (eqb_cases tipo "voltaje") as [[E1 H1] | [E1 H1]]; rewrite E1;
  [| destruct (eqb_cases tipo "corriente") as [[E2 H2] | [E2 H2]]; rewrite E2;
     [| destruct (eqb_cases tipo "resistencia") as [[E3 H3] | [E3 H3]]; rewrite E3]];
  subst; repeat split; try reflexivity; try discriminate; try congruence;
    try tauto; intros; intuition (try discriminate; try congruence).
Qed.

End OhmProperties.

(** ** The Filter *)

Section FilterProperties.

Import AutoGitCommit Publisher.

Lemma prefix_iff (needle hay : string) :
  String.prefix needle hay = true
  <-> exists after : string, hay = (needle ++ after)%string.
Proof.
  revert hay. induction needle as [| a needle IH]; intro hay.
  - split; [intros _; now exists hay | now destruct hay].
  - destruct hay as [| b hay]; simpl.
    + split; [discriminate | intros [after H]; discriminate H].
    + destruct (ascii_dec a b) as [-> | Hab].
      * rewrite IH. split; intros [after H]; exists after.
        -- now rewrite H.
        -- now injection H.
      * split; [discriminate |].
        intros [after H]. injection H as Hb _. congruence.
Qed.

Lemma contains_unfold (needle hay : string) :
  contains needle hay
  = (String.prefix needle hay
     || match hay with
        | EmptyString => false
        | String _ hay' => contains needle hay'
        end).
Proof.
  destruct hay; (cbn [contains]; now destruct (String.prefix needle _)).
Qed.

Lemma contains_iff (needle hay : string) :
  contains needle hay = true <-> substring_of needle hay.
Proof.
  unfold substring_of.
  induction hay as [| c hay IH];
    rewrite contains_unfold, orb_true_iff, prefix_iff.
  - split.
    + intros [[after H] | H]; [now exists ""%string, after | discriminate H].
    + intros [[| b before] [after H]]; [left; now exists after | discriminate H].
  - rewrite IH. split.
    + intros [[after H] | [before [after H]]].
      * now exists ""%string, after.
      * exists (String c before), after. simpl. now rewrite H.
    + intros [[| b before] [after H]].
      * left. now exists after.
      * right. simpl in H. injection H as _ H. now exists before, after.
Qed.

Lemma any_contains_iff (ignore_set : list string) (path : string) :
  any (fun ignored => contains ignored path) ignore_set = false
  <-> forall pattern, In pattern ignore_set -> ~ substring_of pattern path.
Proof.
  unfold any. split.
  - intros H pattern Hin Hsub.
    apply contains_iff in Hsub.
    assert (existsb (fun ignored => contains ignored path) ignore_set = true)
      by (apply existsb_exists; now exists pattern).
    congruence.
  - intro H. apply not_true_is_false. intro Hex.
    apply existsb_exists in Hex. destruct Hex as [pattern [Hin Hc]].
    apply (H pattern Hin). now apply contains_iff.
Qed.

Lemma Filter_true_iff (ignore_set : list string) (event : FileSystemEvent) :
  Filter ignore_set event = true
  <-> is_directory event = false
      /\ forall pattern, In pattern ignore_set ->
                         ~ substring_of pattern (src_path event).
Proof.
  unfold Filter. rewrite andb_true_iff, !negb_true_iff.
  now rewrite any_contains_iff.
Qed.

(** [on_modified] is the Filter in front of the publisher. *)
Lemma on_modified_Filter (G : GitPython) (event : FileSystemEvent) :
  on_modified G event
  = if Filter IGNORED_EXTENSIONS event
    then (print ("Archivo modificado: " ++ src_path event) ;;
          stage_commit_and_push G)
    else ret tt.
Proof.
  unfold on_modified, Filter.
  destruct (is_directory event); cbn [negb andb]; [reflexivity |].
  now destruct (any (fun ignored => contains ignored (src_path event))
                    IGNORED_EXTENSIONS).
Qed.

(** C1. The Filter accepts an event if and only if it is not a directory
    event and no pattern of the ignore set occurs in its path; so it
    rejects every directory event and accepts every non-directory event
    whose path holds no pattern. [on_modified] hands an event to the
    publisher exactly when the Filter accepts it under the configured
    ignore set. *)
Theorem Filter_contract (ignore_set : list string) (event : FileSystemEvent) :
  (Filter ignore_set event = true
   <-> is_directory event = false
       /\ forall pattern, In pattern ignore_set ->
                          ~ substring_of pattern (src_path event)) /\
  (is_directory event = true -> Filter ignore_set event = false) /\
  (is_directory event = false ->
   (forall pattern, In pattern ignore_set ->
                    ~ substring_of pattern (src_path event)) ->
   Filter ignore_set event = true) /\
  (forall G : GitPython,
     on_modified G event
     = if Filter IGNORED_EXTENSIONS event
       then (print ("Archivo modificado: " ++ src_path event) ;;
             stage_commit_and_push G)
       else ret tt).
Proof.
  split; [apply Filter_true_iff |]. split; [| split].
  - intro Hd. unfold Filter. now rewrite Hd.
  - intros Hd Hp. apply Filter_true_iff. now split.
  - intro G. apply on_modified_Filter.
Qed.

(** C1 on the two paths of the end-to-end scenarios: [src/app.py] is
    accepted and [.git/HEAD] is not. *)
Lemma Filter_contract_witness :
  Filter [".git"; ".vscode"] (mkEvent EVENT_TYPE_MODIFIED "src/app.py" false) = true /\
  Filter [".git"; ".vscode"] (mkEvent EVENT_TYPE_MODIFIED "src" true) = false /\
  Filter [".git"; ".vscode"] (mkEvent EVENT_TYPE_MODIFIED ".git/HEAD" false) = false.
Proof.
  split; [| split].
  - apply (Filter_contract [".git"; ".vscode"]
             (mkEvent EVENT_TYPE_MODIFIED "src/app.py" false)).
    + reflexivity.
    + intros pattern Hin. apply any_contains_iff with (ignore_set := [".git"; ".vscode"]).
      * reflexivity.
      * exact Hin.
  - apply (Filter_contract [".git"; ".vscode"]
             (mkEvent EVENT_TYPE_MODIFIED "src" true)). reflexivity.
  - reflexivity.
Defined.

End FilterProperties.

(** ** The Publisher *)

Section PublisherProperties.

Import AutoGitCommit Publisher.

Variable G : GitPython.

(** The [try] suite, step by step: it stops at the first call that
    raises. *)
Lemma try_suite_run (w : World G) :
  try_suite G w =
  match git_add_A G (repo w) with
  | (Raise e, r1) => (Raise e, mkWorld r1 (stdout w) (calls w ++ [GitAdd_A]))
  | (Ok _, r1) =>
    match index_commit G COMMIT_MESSAGE r1 with
    | (Raise e, r2) =>
        (Raise e, mkWorld r2 (stdout w)
                    (calls w ++ [GitAdd_A; IndexCommit COMMIT_MESSAGE]))
    | (Ok _, r2) =>
      match repo_remote G GITHUB_REMOTE r2 with
      | Raise e =>
          (Raise e, mkWorld r2 (stdout w)
                      (calls w ++ [GitAdd_A; IndexCommit COMMIT_MESSAGE;
                                   RepoRemote GITHUB_REMOTE]))
      | Ok origin =>
        match remote_push G origin BRANCH_NAME r2 with
        | (Raise e, r3) =>
            (Raise e, mkWorld r3 (stdout w) (calls w ++ publish_calls))
        | (Ok _, r3) =>
            (Ok tt, mkWorld r3 (stdout w ++ [SUCCESS_LINE])
                      (calls w ++ publish_calls))
        end
      end
    end
  end.
Proof.
  unfold try_suite, bind, invoke, query, print, publish_calls. cbn [repo stdout calls].
  destruct (git_add_A G (repo w)) as [[[] | e] r1]; [| reflexivity].
  cbn [repo stdout calls].
  destruct (index_commit G COMMIT_MESSAGE r1) as [[[] | e] r2];
    rewrite <- ?app_assoc; [| reflexivity].
  cbn [repo stdout calls].
  destruct (repo_remote G GITHUB_REMOTE r2) as [origin | e];
    rewrite <- ?app_assoc; [| reflexivity].
  cbn [repo stdout calls].
  destruct (remote_push G origin BRANCH_NAME r2) as [[[] | e] r3];
    rewrite <- ?app_assoc; reflexivity.
Qed.

(** Unfolds a publish started in [w] into the cases of [try_suite_run]. *)
Ltac publish_cases w :=
  unfold stage_commit_and_push, try_except, publish_outcome,
    add_ok, commit_ok, lookup_ok, after_commit, after_add, print in *;
  rewrite ?try_suite_run in *;
  destruct (git_add_A G (repo w)) as [[[] | ?e] ?r] eqn:?Hadd;
  cbn [fst snd is_ok repo stdout calls] in *;
  [ destruct (index_commit G COMMIT_MESSAGE _) as [[[] | ?e] ?r] eqn:?Hcommit;
    cbn [fst snd is_ok repo stdout calls] in *;
    [ destruct (repo_remote G GITHUB_REMOTE _) as [?origin | ?e] eqn:?Hlookup;
      cbn [fst snd is_ok repo stdout calls] in *;
      [ destruct (remote_push G _ BRANCH_NAME _) as [[[] | ?e] ?r] eqn:?Hpush;
        cbn [fst snd is_ok repo stdout calls] in *
      | ]
    | ]
  | ].

(** A publish never lets an exception out. *)
Lemma stage_commit_and_push_returns (w : World G) :
  fst (stage_commit_and_push G w) = Ok tt.
Proof.
  publish_cases w; reflexivity.
Qed.

(** A publish makes one [print] call: what its outcome logs. *)
Lemma stage_commit_and_push_logs (w : World G) :
  stdout (snd (stage_commit_and_push G w))
  = stdout w ++ [logged (publish_outcome G w)].
Proof.
  publish_cases w; reflexivity.
Qed.

(** The calls of a publish: each is issued only if the one before
    returned normally. *)
Lemma stage_commit_and_push_calls (w : World G) :
  calls (snd (stage_commit_and_push G w))
  = calls w ++
    GitAdd_A ::
    (if add_ok G w then
       IndexCommit COMMIT_MESSAGE ::
       (if commit_ok G w then
          RepoRemote GITHUB_REMOTE ::
          (if lookup_ok G w then [RemotePush BRANCH_NAME] else [])
        else [])
     else []).
Proof.
  publish_cases w; reflexivity.
Qed.

(** With a commit step that records and a push that leaves the local
    history alone, a publish whose stage and commit steps return
    normally leaves its commit at the head of the history, whatever the
    push does. *)
Lemma publish_keeps_commit (w : World G) :
  commit_records G -> push_keeps_history G ->
  add_ok G w = true -> commit_ok G w = true ->
  history G (repo (snd (stage_commit_and_push G w)))
  = history G (after_commit G w)
  /\ history G (after_commit G w)
     = COMMIT_MESSAGE :: history G (after_add G w).
Proof.
  intros Hrec Hkeep Hadd Hcommit. split.
  - unfold commit_ok, add_ok, after_commit, after_add in *.
    unfold stage_commit_and_push, try_except, print. rewrite try_suite_run.
    destruct (git_add_A G (repo w)) as [[[] | e1] r1]; [| discriminate Hadd].
    cbn [fst snd] in *.
    destruct (index_commit G COMMIT_MESSAGE r1) as [[[] | e2] r2];
      [| discriminate Hcommit].
    cbn [fst snd] in *.
    destruct (repo_remote G GITHUB_REMOTE r2) as [origin | e3]; [| reflexivity].
    pose proof (Hkeep origin BRANCH_NAME r2) as Hk.
    destruct (remote_push G origin BRANCH_NAME r2) as [[[] | e4] r3];
      cbn [fst snd repo] in *; exact Hk.
  - unfold after_commit. apply Hrec.
    unfold commit_ok in Hcommit.
    destruct (fst (index_commit G COMMIT_MESSAGE (after_add G w))) as [[] | e0];
      [reflexivity | discriminate Hcommit].
Qed.


(** *** The observer thread *)

Lemma on_modified_returns (event : FileSystemEvent) (w : World G) :
  fst (on_modified G event w) = Ok tt.
Proof.
  unfold on_modified.
  destruct (negb (is_directory event)); [| reflexivity].
  destruct (negb (any _ IGNORED_EXTENSIONS)); [| reflexivity].
  unfold bind, print. apply stage_commit_and_push_returns.
Qed.

Lemma dispatch_returns (event : FileSystemEvent) (w : World G) :
  fst (dispatch G event w) = Ok tt.
Proof.
  unfold dispatch, bind, on_any_event, ret.
  destruct (event_type event); try reflexivity.
  apply on_modified_returns.
Qed.

Lemma dispatch_events_cons (event : FileSystemEvent)
    (rest : list FileSystemEvent) (w : World G) :
  dispatch_events G (event :: rest) w
  = dispatch_events G rest (snd (dispatch G event w)).
Proof.
  cbn [dispatch_events]. unfold bind at 1.
  pose proof (dispatch_returns event w) as H.
  destruct (dispatch G event w) as [[[] | e] w1]; [reflexivity | discriminate H].
Qed.

Lemma dispatch_events_returns (events : list FileSystemEvent) (w : World G) :
  fst (dispatch_events G events w) = Ok tt.
Proof.
  revert w. induction events as [| event rest IH]; intro w.
  - reflexivity.
  - rewrite dispatch_events_cons. apply IH.
Qed.


(** The observer thread outlives every batch of events. *)
Lemma deliver_alive (events : list FileSystemEvent) (w : World G) :
  deliver G true events w = (true, snd (dispatch_events G events w)).
Proof.
  unfold deliver.
  pose proof (dispatch_events_returns events w) as H.
  destruct (dispatch_events G events w) as [[[] | e] w1];
    [reflexivity | discriminate H].
Qed.

(** What [dispatch] does with an event that reaches the publisher. *)
Lemma dispatch_trigger (event : FileSystemEvent) (w : World G) :
  triggers event = true ->
  dispatch G event w
  = stage_commit_and_push G
      (snd (print ("Archivo modificado: " ++ src_path event) w)).
Proof.
  unfold triggers. rewrite andb_true_iff. intros [Hm Hf].
  unfold dispatch, bind, on_any_event, ret.
  destruct (event_type event); try discriminate Hm.
  rewrite on_modified_Filter, Hf. reflexivity.
Qed.

(** A step that raises ends the [try] suite with that exception, after
    the calls up to the failing one and before any line is printed. *)
Lemma try_suite_raises (w : World G) (e : Exception) (s : Step) :
  StepRaises G w e s ->
  exists new : list GitCall,
    fst (try_suite G w) = Raise e /\
    stdout (snd (try_suite G w)) = stdout w /\
    calls (snd (try_suite G w)) = calls w ++ new /\
    match s with
    | STAGE => new = [GitAdd_A]
    | COMMIT => new = [GitAdd_A; IndexCommit COMMIT_MESSAGE]
    | PUSH =>
        new = [GitAdd_A; IndexCommit COMMIT_MESSAGE; RepoRemote GITHUB_REMOTE]
        \/ new = publish_calls
    end.
Proof.
  intro Hraise. rewrite try_suite_run.
  destruct Hraise as [Ha | Ha Hc | Ha Hc Hl | origin Ha Hc Hl Hp];
    unfold add_ok, commit_ok, after_commit, after_add in *.
  - destruct (git_add_A G (repo w)) as [[[] | e1] r1]; cbn [fst] in Ha;
      [discriminate Ha | injection Ha as ->].
    exists [GitAdd_A]. now repeat split.
  - destruct (git_add_A G (repo w)) as [[[] | e1] r1]; cbn [fst snd is_ok] in *;
      [| discriminate Ha].
    destruct (index_commit G COMMIT_MESSAGE r1) as [[[] | e2] r2];
      cbn [fst] in Hc; [discriminate Hc | injection Hc as ->].
    exists [GitAdd_A; IndexCommit COMMIT_MESSAGE]. now repeat split.
  - destruct (git_add_A G (repo w)) as [[[] | e1] r1]; cbn [fst snd is_ok] in *;
      [| discriminate Ha].
    destruct (index_commit G COMMIT_MESSAGE r1) as [[[] | e2] r2];
      cbn [fst snd is_ok] in *; [| discriminate Hc].
    rewrite Hl.
    exists [GitAdd_A; IndexCommit COMMIT_MESSAGE; RepoRemote GITHUB_REMOTE].
    repeat split; now left.
  - destruct (git_add_A G (repo w)) as [[[] | e1] r1]; cbn [fst snd is_ok] in *;
      [| discriminate Ha].
    destruct (index_commit G COMMIT_MESSAGE r1) as [[[] | e2] r2];
      cbn [fst snd is_ok] in *; [| discriminate Hc].
    rewrite Hl.
    destruct (remote_push G origin BRANCH_NAME r2) as [[[] | e4] r3];
      cbn [fst] in Hp; [discriminate Hp | injection Hp as ->].
    exists publish_calls. repeat split; now right.
Qed.

(** C3. When a step of a publish raises, the steps after it are not
    attempted and the failing call is not repeated; the exception does
    not leave [stage_commit_and_push]: the publish returns normally, its
    outcome is a failure carrying the logged error line, and that line is
    printed. The observer thread stays alive and goes on to the events
    that follow the one whose publish failed. *)
Theorem publish_failure_is_contained (w : World G) (e : Exception) (s : Step) :
  StepRaises G w e s ->
  let w' := snd (stage_commit_and_push G w) in
  let line := ("Error al subir cambios: " ++ exc_str e)%string in
  fst (stage_commit_and_push G w) = Ok tt /\
  publish_outcome G w = mkOutcome false (Some line) /\
  stdout w' = stdout w ++ [line] /\
  (exists new,
     calls w' = calls w ++ new /\ NoDup new /\
     match s with
     | STAGE => new = [GitAdd_A]
     | COMMIT => new = [GitAdd_A; IndexCommit COMMIT_MESSAGE]
     | PUSH =>
         new = [GitAdd_A; IndexCommit COMMIT_MESSAGE; RepoRemote GITHUB_REMOTE]
         \/ new = publish_calls
     end) /\
  (forall (event : FileSystemEvent) (rest : list FileSystemEvent) (w0 : World G),
     triggers event = true ->
     w = snd (print ("Archivo modificado: " ++ src_path event) w0) ->
     dispatch_events G (event :: rest) w0 = dispatch_events G rest w' /\
     deliver G true (event :: rest) w0
     = (true, snd (dispatch_events G rest w'))).
Proof.
  intros Hraise w' line.
  assert (Hloop : forall event rest w0,
     triggers event = true ->
     w = snd (print ("Archivo modificado: " ++ src_path event) w0) ->
     dispatch_events G (event :: rest) w0 = dispatch_events G rest w' /\
     deliver G true (event :: rest) w0
     = (true, snd (dispatch_events G rest w'))).
  { intros event rest w0 Ht Hw.
    assert (Hd : dispatch_events G (event :: rest) w0 = dispatch_events G rest w').
    { rewrite dispatch_events_cons, (dispatch_trigger event w0 Ht), <- Hw.
      reflexivity. }
    split; [exact Hd |]. rewrite deliver_alive, Hd. reflexivity. }
  split; [apply stage_commit_and_push_returns |].
  assert (Hnd : forall l : list GitCall,
            l = [GitAdd_A] \/ l = [GitAdd_A; IndexCommit COMMIT_MESSAGE]
            \/ l = [GitAdd_A; IndexCommit COMMIT_MESSAGE; RepoRemote GITHUB_REMOTE]
            \/ l = publish_calls -> NoDup l).
  { intros l [-> | [-> | [-> | ->]]]; unfold publish_calls;
      repeat constructor; simpl; intuition discriminate. }
  destruct (try_suite_raises w e s Hraise) as [new [Hres [Hout [Hcalls Hshape]]]].
  assert (Hrun : stage_commit_and_push G w
                 = print line (snd (try_suite G w))).
  { unfold stage_commit_and_push, try_except.
    destruct (try_suite G w) as [[[] | e0] w1]; cbn [fst snd] in *;
      [discriminate Hres | now injection Hres as ->]. }
  split; [unfold publish_outcome; now rewrite Hres |].
  split; [subst w'; rewrite Hrun; unfold print; cbn [snd stdout]; now rewrite Hout |].
  split; [| exact Hloop].
  exists new. split; [subst w'; rewrite Hrun; exact Hcalls |].
  split; [| exact Hshape].
  apply Hnd. destruct s; subst; tauto.
Qed.


End PublisherProperties.

(** ** Events, publish cycles and the process *)

Section WatcherProperties.

Import AutoGitCommit Publisher.

Variable G : GitPython.

(** An event that is not of kind "modified", or that the Filter rejects,
    leaves the world as it is. *)
Lemma dispatch_skip (event : FileSystemEvent) (w : World G) :
  triggers event = false -> dispatch G event w = (Ok tt, w).
Proof.
  unfold triggers, dispatch, bind, on_any_event, ret. intro Ht.
  destruct (event_type event); try reflexivity.
  cbn [is_modified andb] in Ht.
  rewrite on_modified_Filter, Ht. reflexivity.
Qed.

Lemma publish_cycles_app (l1 l2 : list GitCall) :
  publish_cycles (l1 ++ l2) = publish_cycles l1 + publish_cycles l2.
Proof.
  unfold publish_cycles. now rewrite filter_app, length_app.
Qed.

(** A publish is one cycle. *)
Lemma publish_is_one_cycle (w : World G) :
  publish_cycles (calls (snd (stage_commit_and_push G w)))
  = publish_cycles (calls w) + 1.
Proof.
  rewrite stage_commit_and_push_calls, publish_cycles_app. f_equal.
  destruct (add_ok G w); [| reflexivity].
  destruct (commit_ok G w); [| reflexivity].
  destruct (lookup_ok G w); reflexivity.
Qed.

Lemma dispatch_cycles (event : FileSystemEvent) (w : World G) :
  publish_cycles (calls (snd (dispatch G event w)))
  = publish_cycles (calls w) + (if triggers event then 1 else 0).
Proof.
  destruct (triggers event) eqn:Ht.
  - rewrite (dispatch_trigger G event w Ht), publish_is_one_cycle. reflexivity.
  - rewrite (dispatch_skip event w Ht). cbn [snd]. lia.
Qed.

(** C6, as the script has it. Every event that reaches the publisher
    starts a publish cycle of its own: the events handed to the observer
    thread start as many cycles as there are events of kind "modified"
    that the Filter accepts, however close together they arrive, and the
    cycle of an event starts in the world the cycle before it left. Two
    such events for two different files give two cycles. *)
Theorem one_cycle_per_event (events : list FileSystemEvent) (w : World G) :
  publish_cycles (calls (snd (dispatch_events G events w)))
  = publish_cycles (calls w) + List.length (filter triggers events) /\
  (forall e1 e2 : FileSystemEvent,
     dispatch_events G [e1; e2] w = dispatch G e2 (snd (dispatch G e1 w))) /\
  (forall e1 e2 : FileSystemEvent,
     triggers e1 = true -> triggers e2 = true ->
     publish_cycles (calls (snd (dispatch_events G [e1; e2] w)))
     = publish_cycles (calls w) + 2).
Proof.
  assert (Hcount : forall evs w0,
            publish_cycles (calls (snd (dispatch_events G evs w0)))
            = publish_cycles (calls w0) + List.length (filter triggers evs)).
  { induction evs as [| event rest IH]; intro w0.
    - cbn. lia.
    - rewrite dispatch_events_cons, IH, dispatch_cycles. cbn [filter].
      destruct (triggers event); cbn [List.length]; lia. }
  split; [apply Hcount |]. split.
  - intros e1 e2. rewrite !dispatch_events_cons. cbn [dispatch_events].
    unfold ret.
    pose proof (dispatch_returns G e2 (snd (dispatch G e1 w))) as H.
    destruct (dispatch G e2 (snd (dispatch G e1 w))) as [[[] | e] w2];
      [reflexivity | discriminate H].
  - intros e1 e2 H1 H2. rewrite Hcount. cbn [filter].
    rewrite H1, H2. reflexivity.
Qed.

(** C8. An event of any kind but "modified" is dispatched to a handler
    the class inherits and changes nothing: no line is printed and no
    GitPython call is made. For every sequence of events the observer
    thread does what it would do on the "modified" events of the
    sequence alone, and the number of publish cycles is at most the
    number of those. *)
Theorem only_modified_events_publish (events : list FileSystemEvent) (w : World G) :
  let modified := filter (fun event => is_modified (event_type event)) events in
  dispatch_events G events w = dispatch_events G modified w /\
  publish_cycles (calls (snd (dispatch_events G events w)))
  <= publish_cycles (calls w) + List.length modified /\
  (forall event : FileSystemEvent,
     is_modified (event_type event) = false ->
     dispatch G event w = (Ok tt, w)) /\
  (modified = [] -> dispatch_events G events w = (Ok tt, w)).
Proof.
  assert (Hskip : forall event w0,
            is_modified (event_type event) = false ->
            dispatch G event w0 = (Ok tt, w0)).
  { intros event w0 Hm. apply dispatch_skip. unfold triggers. now rewrite Hm. }
  assert (Heq : forall evs w0,
            dispatch_events G evs w0
            = dispatch_events G
                (filter (fun event => is_modified (event_type event)) evs) w0).
  { induction evs as [| event rest IH]; intro w0; [reflexivity |].
    cbn [filter]. destruct (is_modified (event_type event)) eqn:Hm.
    - rewrite !dispatch_events_cons. apply IH.
    - rewrite dispatch_events_cons, (Hskip event w0 Hm). apply IH. }
  assert (Hle : forall evs w0,
            publish_cycles (calls (snd (dispatch_events G evs w0)))
            <= publish_cycles (calls w0) + List.length evs).
  { induction evs as [| event rest IH]; intro w0.
    - cbn. lia.
    - rewrite dispatch_events_cons. specialize (IH (snd (dispatch G event w0))).
      rewrite dispatch_cycles in IH. cbn [List.length].
      destruct (triggers event); lia. }
  intro modified. split; [apply Heq |]. split; [| split].
  - rewrite Heq. apply Hle.
  - intros event Hm. now apply Hskip.
  - intro Hnil. rewrite Heq. fold modified. rewrite Hnil. reflexivity.
Qed.

End WatcherProperties.

(** ** Publishing with nothing to commit *)

Section NoPendingChanges.

Import AutoGitCommit Publisher.

Variable G : GitPython.

(** C5, as the script has it. A publish does not raise, on a clean
    tree or on any other. It never looks for pending changes and has no
    no-op report: the line it prints is the success line or an error
    line, whenever the stage step returns normally it calls the commit
    step with the fixed message, and when that call returns normally too
    the commit it records heads the local history afterwards. *)
Theorem publish_never_checks_for_changes (w : World G) :
  let w' := snd (stage_commit_and_push G w) in
  fst (stage_commit_and_push G w) = Ok tt /\
  (exists line : string,
     stdout w' = stdout w ++ [line] /\
     (line = SUCCESS_LINE
      \/ exists e : Exception, line = ("Error al subir cambios: " ++ exc_str e)%string)) /\
  (add_ok G w = true -> In (IndexCommit COMMIT_MESSAGE) (calls w')) /\
  (commit_records G -> push_keeps_history G ->
   add_ok G w = true -> commit_ok G w = true ->
   history G (repo w') = COMMIT_MESSAGE :: history G (after_add G w)).
Proof.
  intro w'. subst w'.
  split; [apply stage_commit_and_push_returns |]. split; [| split].
  - exists (logged (publish_outcome G w)).
    split; [apply stage_commit_and_push_logs |].
    unfold publish_outcome.
    destruct (fst (try_suite G w)) as [[] | e]; [now left |].
    right. now exists e.
  - intro Hadd. rewrite stage_commit_and_push_calls, Hadd.
    apply in_or_app. right. right. now left.
  - intros Hrec Hkeep Hadd Hcommit.
    destruct (publish_keeps_commit G w Hrec Hkeep Hadd Hcommit) as [H1 H2].
    congruence.
Qed.

End NoPendingChanges.

(** ** Runs on the small repository *)

Section Runs.

Import AutoGitCommit Publisher SimpleGit.

Lemma simple_commit_records (disk : string -> option State) :
  commit_records (git disk).
Proof.
  intros message r _. reflexivity.
Qed.

Lemma simple_push_keeps_history (disk : string -> option State) :
  push_keeps_history (git disk).
Proof.
  intros origin branch r. unfold git, push. cbn [remote_push history snd].
  now destruct (reachable r).
Qed.


(** C3 with the remote out of reach: the push raises, the error line is
    printed and the next event is handled. *)
Lemma publish_failure_is_contained_witness :
  StepRaises (git no_disk) (world (dirty false)) unreachable PUSH /\
  stdout (snd (stage_commit_and_push (git no_disk) (world (dirty false))))
  = ["Error al subir cambios: unable to access 'origin'"%string].
Proof.
  assert (H : StepRaises (git no_disk) (world (dirty false)) unreachable PUSH).
  { apply push_raises with (origin := "origin"%string); reflexivity. }
  split; [exact H |].
  exact (proj1 (proj2 (proj2
    (publish_failure_is_contained (git no_disk) (world (dirty false))
       unreachable PUSH H)))).
Defined.


(** C5 does not hold of the script: on a clean tree with the remote in
    reach, a publish returns normally, prints the success line and adds
    a commit that holds no path. *)
Lemma publish_on_clean_tree_adds_empty_commit :
  worktree (clean true) = [] /\ staged (clean true) = [] /\
  fst (stage_commit_and_push (git no_disk) (world (clean true))) = Ok tt /\
  stdout (snd (stage_commit_and_push (git no_disk) (world (clean true))))
  = [SUCCESS_LINE] /\
  commits (repo (snd (stage_commit_and_push (git no_disk) (world (clean true)))))
  = (COMMIT_MESSAGE, []) :: commits (clean true) /\
  ~ (forall w : World (git no_disk),
       worktree (repo w) = [] -> staged (repo w) = [] ->
       fst (stage_commit_and_push (git no_disk) w) = Ok tt /\
       history (git no_disk) (repo (snd (stage_commit_and_push (git no_disk) w)))
       = history (git no_disk) (repo w)).
Proof.
  repeat (split; [vm_compute; reflexivity |]).
  intro H.
  destruct (H (world (clean true)) eq_refl eq_refl) as [_ Hh].
  vm_compute in Hh. discriminate Hh.
Qed.

(** The run of C5 as the script has it: the publish on the clean tree
    puts its commit at the head of the history. *)
Lemma publish_never_checks_for_changes_witness :
  add_ok (git no_disk) (world (clean true)) = true /\
  commit_ok (git no_disk) (world (clean true)) = true /\
  history (git no_disk)
    (repo (snd (stage_commit_and_push (git no_disk) (world (clean true)))))
  = [COMMIT_MESSAGE; "Initial commit"%string].
Proof.
  split; [reflexivity |]. split; [reflexivity |].
  exact (proj2 (proj2 (proj2
    (publish_never_checks_for_changes (git no_disk) (world (clean true)))))
    (simple_commit_records no_disk) (simple_push_keeps_history no_disk)
    eq_refl eq_refl).
Defined.

(** C6 does not hold of the script: the events for [src/a.py] and
    [src/b.py], handed over back to back, start two publish cycles and
    leave two commits, the second of them empty. *)
Lemma two_events_start_two_cycles :
  triggers (modified_file "src/a.py") = true /\
  triggers (modified_file "src/b.py") = true /\
  publish_cycles
    (calls (snd (dispatch_events (git no_disk)
                   [modified_file "src/a.py"; modified_file "src/b.py"]
                   (world (two_dirty true))))) = 2 /\
  commits
    (repo (snd (dispatch_events (git no_disk)
                  [modified_file "src/a.py"; modified_file "src/b.py"]
                  (world (two_dirty true)))))
  = [(COMMIT_MESSAGE, []); (COMMIT_MESSAGE, ["src/a.py"; "src/b.py"]);
     ("Initial commit", ["README.md"])] /\
  ~ (forall (e1 e2 : FileSystemEvent) (w : World (git no_disk)),
       triggers e1 = true -> triggers e2 = true ->
       src_path e1 <> src_path e2 ->
       publish_cycles (calls (snd (dispatch_events (git no_disk) [e1; e2] w)))
       = publish_cycles (calls w) + 1).
Proof.
  repeat (split; [vm_compute; reflexivity |]).
  intro H.
  specialize (H (modified_file "src/a.py") (modified_file "src/b.py")
                (world (two_dirty true)) eq_refl eq_refl).
  assert (Hne : src_path (modified_file "src/a.py")
                <> src_path (modified_file "src/b.py")) by discriminate.
  specialize (H Hne). vm_compute in H. discriminate H.
Qed.

(** The run of C6 as the script has it: two events, two cycles. *)
Lemma one_cycle_per_event_witness :
  triggers (modified_file "src/a.py") = true /\
  triggers (modified_file "src/b.py") = true /\
  publish_cycles
    (calls (snd (dispatch_events (git no_disk)
                   [modified_file "src/a.py"; modified_file "src/b.py"]
                   (world (two_dirty true))))) = 2.
Proof.
  split; [reflexivity |]. split; [reflexivity |].
  exact (proj2 (proj2
    (one_cycle_per_event (git no_disk) [] (world (two_dirty true))))
    (modified_file "src/a.py") (modified_file "src/b.py") eq_refl eq_refl).
Defined.

(** C8 on a file that is created, moved and deleted: nothing is
    published. *)
Lemma only_modified_events_publish_witness :
  dispatch_events (git no_disk)
    [mkEvent EVENT_TYPE_CREATED "src/new.py" false;
     mkEvent EVENT_TYPE_MOVED "src/new.py" false;
     mkEvent EVENT_TYPE_DELETED "src/old.py" false]
    (world (dirty true))
  = (Ok tt, world (dirty true)).
Proof.
  apply (only_modified_events_publish (git no_disk)
           [mkEvent EVENT_TYPE_CREATED "src/new.py" false;
            mkEvent EVENT_TYPE_MOVED "src/new.py" false;
            mkEvent EVENT_TYPE_DELETED "src/old.py" false]
           (world (dirty true))).
  reflexivity.
Defined.

End Runs.

(** * Further properties *)

(** ** The ignore set *)

Section IgnoreSet.

Import AutoGitCommit Publisher.

Lemma string_app_assoc (a b c : string) :
  ((a ++ b) ++ c = a ++ (b ++ c))%string.
Proof.
  induction a as [| x a IH]; simpl; [reflexivity | now rewrite IH].
Qed.

Lemma string_app_length (a b : string) :
  String.length (a ++ b) = String.length a + String.length b.
Proof.
  induction a as [| x a IH]; simpl; [reflexivity | now rewrite IH].
Qed.

Lemma substring_of_trans (p q path : string) :
  substring_of p q -> substring_of q path -> substring_of p path.
Proof.
  intros [b1 [a1 ->]] [b2 [a2 ->]].
  exists (b2 ++ b1)%string, (a1 ++ a2)%string.
  now rewrite !string_app_assoc.
Qed.

Lemma substring_of_length (p path : string) :
  substring_of p path -> String.length p <= String.length path.
Proof.
  intros [b [a ->]]. rewrite !string_app_length. lia.
Qed.

Lemma Filter_false_iff (ignore_set : list string) (event : FileSystemEvent) :
  Filter ignore_set event = false
  <-> is_directory event = true
      \/ exists pattern, In pattern ignore_set
                         /\ substring_of pattern (src_path event).
Proof.
  unfold Filter, any. rewrite andb_false_iff, !negb_false_iff, existsb_exists.
  split; (intros [H | [pattern [Hin Hc]]]; [now left | right]);
    exists pattern; (split; [exact Hin | now apply contains_iff]).
Qed.

(** X1. The verdict of the Filter depends on the ignore set as a set of
    patterns only: the verdict under two lists put together is the
    conjunction of the two verdicts, a list that holds every pattern of
    another rejects whatever the other rejects, and two lists with the
    same patterns, in any order and with any repetitions, give the same
    verdict. *)
Theorem Filter_ignore_set (l1 l2 : list string) (event : FileSystemEvent) :
  Filter (l1 ++ l2) event = Filter l1 event && Filter l2 event /\
  ((forall pattern, In pattern l1 -> In pattern l2) ->
   Filter l1 event = false -> Filter l2 event = false) /\
  ((forall pattern, In pattern l1 <-> In pattern l2) ->
   Filter l1 event = Filter l2 event).
Proof.
  assert (Hmono : forall a b : list string,
            (forall pattern, In pattern a -> In pattern b) ->
            Filter a event = false -> Filter b event = false).
  { intros a b Hincl. rewrite !Filter_false_iff.
    intros [Hd | [pattern [Hin Hs]]]; [now left | right].
    exists pattern. split; [now apply Hincl | exact Hs]. }
  split; [| split].
  - unfold Filter, any. rewrite existsb_app.
    destruct (is_directory event); [reflexivity |].
    cbn [negb andb]. now rewrite negb_orb.
  - apply Hmono.
  - intro Hsame.
    destruct (Filter l1 event) eqn:H1, (Filter l2 event) eqn:H2;
      try reflexivity.
    + rewrite (Hmono l2 l1) in H1; [discriminate H1 | | exact H2].
      intros pattern Hin. now apply Hsame.
    + rewrite (Hmono l1 l2) in H2; [discriminate H2 | | exact H1].
      intros pattern Hin. now apply Hsame.
Qed.

(** X1 on the configured set read backwards and a file under
    [.vscode]. *)
Lemma Filter_ignore_set_witness :
  Filter (rev IGNORED_EXTENSIONS)
    (mkEvent EVENT_TYPE_MODIFIED ".vscode/settings.json" false)
  = Filter IGNORED_EXTENSIONS
      (mkEvent EVENT_TYPE_MODIFIED ".vscode/settings.json" false).
Proof.
  apply (Filter_ignore_set (rev IGNORED_EXTENSIONS) IGNORED_EXTENSIONS
           (mkEvent EVENT_TYPE_MODIFIED ".vscode/settings.json" false)).
  intro pattern. symmetry. apply in_rev.
Defined.

Lemma Filter_drop_pattern (l1 l2 : list string) (p q : string)
    (event : FileSystemEvent) :
  substring_of p q ->
  In p (l1 ++ l2) ->
  Filter (l1 ++ q :: l2) event = Filter (l1 ++ l2) event.
Proof.
  intros Hpq Hin.
  destruct (Filter (l1 ++ l2) event) eqn:H.
  - apply Filter_true_iff in H. destruct H as [Hd Hno].
    apply Filter_true_iff. split; [exact Hd |].
    intros pattern Hp Hs. apply in_app_or in Hp.
    destruct Hp as [Hp | [<- | Hp]].
    + apply (Hno pattern); [apply in_or_app; now left | exact Hs].
    + apply (Hno p Hin). now apply substring_of_trans with (q := q).
    + apply (Hno pattern); [apply in_or_app; now right | exact Hs].
  - apply Filter_false_iff in H. apply Filter_false_iff.
    destruct H as [Hd | [pattern [Hp Hs]]]; [now left | right].
    exists pattern. split; [| exact Hs].
    apply in_app_or in Hp. apply in_or_app.
    destruct Hp as [Hp | Hp]; [now left | right; now right].
Qed.

(** X2. A pattern that contains another pattern of the ignore set is
    dead: taking it out changes no verdict. In the configured set that
    is [".gitignore"], which contains [".git"]: the Filter decides as if
    the set were [".git"], [".vscode"], [".idea"]. *)
Theorem Filter_redundant_pattern (l1 l2 : list string) (p q : string)
    (event : FileSystemEvent) :
  (substring_of p q -> In p (l1 ++ l2) ->
   Filter (l1 ++ q :: l2) event = Filter (l1 ++ l2) event) /\
  Filter IGNORED_EXTENSIONS event = Filter [".git"; ".vscode"; ".idea"] event.
Proof.
  split; [apply Filter_drop_pattern |].
  apply (Filter_drop_pattern [".git"] [".vscode"; ".idea"] ".git" ".gitignore").
  - now exists ""%string, "ignore"%string.
  - now left.
Qed.

(** X2 with the pattern [".idea"] doubled by [".idea/workspace.xml"]. *)
Lemma Filter_redundant_pattern_witness :
  Filter [".git"; ".idea/workspace.xml"; ".idea"]
    (mkEvent EVENT_TYPE_MODIFIED ".idea/workspace.xml" false)
  = Filter [".git"; ".idea"]
      (mkEvent EVENT_TYPE_MODIFIED ".idea/workspace.xml" false).
Proof.
  assert (Hsub : substring_of ".idea" ".idea/workspace.xml")
    by now exists ""%string, "/workspace.xml"%string.
  assert (Hin : In ".idea"%string ([".git"] ++ [".idea"])%list)
    by (right; now left).
  exact (proj1 (Filter_redundant_pattern [".git"] [".idea"]
                  ".idea" ".idea/workspace.xml"
                  (mkEvent EVENT_TYPE_MODIFIED ".idea/workspace.xml" false))
               Hsub Hin).
Defined.

(** X3. At the edges of the Filter: an empty pattern in the ignore set
    rejects every event, and a file whose path is shorter than every
    pattern is accepted; so under the configured set a file event with
    an empty path reaches the publisher. *)
Theorem Filter_edges (ignore_set : list string) (event : FileSystemEvent) :
  (In ""%string ignore_set -> Filter ignore_set event = false) /\
  (is_directory event = false ->
   (forall pattern, In pattern ignore_set ->
      String.length (src_path event) < String.length pattern) ->
   Filter ignore_set event = true) /\
  (is_directory event = false -> src_path event = ""%string ->
   Filter IGNORED_EXTENSIONS event = true).
Proof.
  assert (Hshort : forall l : list string,
            is_directory event = false ->
            (forall pattern, In pattern l ->
               String.length (src_path event) < String.length pattern) ->
            Filter l event = true).
  { intros l Hd Hlen. apply Filter_true_iff. split; [exact Hd |].
    intros pattern Hin Hs. apply substring_of_length in Hs.
    specialize (Hlen pattern Hin). lia. }
  split; [| split].
  - intro Hin. apply Filter_false_iff. right. exists ""%string.
    split; [exact Hin |]. now exists ""%string, (src_path event).
  - apply Hshort.
  - intros Hd Hpath. apply Hshort; [exact Hd |].
    rewrite Hpath. intros pattern Hin. cbn in Hin.
    destruct Hin as [<- | [<- | [<- | [<- | []]]]]; cbn; lia.
Qed.

(** X3 on the event of a file with an empty path. *)
Lemma Filter_edges_witness :
  Filter [".git"; ""] (mkEvent EVENT_TYPE_MODIFIED "src/app.py" false) = false /\
  Filter IGNORED_EXTENSIONS (mkEvent EVENT_TYPE_MODIFIED "" false) = true.
Proof.
  split.
  - apply (Filter_edges [".git"; ""%string]
             (mkEvent EVENT_TYPE_MODIFIED "src/app.py" false)).
    right. now left.
  - apply (Filter_edges [] (mkEvent EVENT_TYPE_MODIFIED "" false));
      reflexivity.
Defined.

End IgnoreSet.

(** ** What a run of the watcher adds up to *)

Section Accounts.

Import AutoGitCommit Publisher Accounting Process.

Variable G : GitPython.

(** A publish that does not report success stopped at a step that
    raised. *)
Lemma failed_publish_step (w : World G) :
  succeeded (publish_outcome G w) = false ->
  exists (e : Exception) (s : Step), StepRaises G w e s.
Proof.
  unfold publish_outcome. rewrite try_suite_run.
  destruct (git_add_A G (repo w)) as [[[] | e1] r1] eqn:Ha.
  2: { intros _. exists e1, STAGE. apply stage_raises. now rewrite Ha. }
  assert (Hadd : add_ok G w = true) by (unfold add_ok; now rewrite Ha).
  destruct (index_commit G COMMIT_MESSAGE r1) as [[[] | e2] r2] eqn:Hc.
  2: { intros _. exists e2, COMMIT. apply commit_raises; [exact Hadd |].
       unfold after_add. rewrite Ha. cbn [snd]. now rewrite Hc. }
  assert (Hcommit : commit_ok G w = true).
  { unfold commit_ok, after_add. rewrite Ha. cbn [snd]. now rewrite Hc. }
  assert (Hafter : after_commit G w = r2).
  { unfold after_commit, after_add. rewrite Ha. cbn [snd]. now rewrite Hc. }
  destruct (repo_remote G GITHUB_REMOTE r2) as [origin | e3] eqn:Hl.
  2: { intros _. exists e3, PUSH. apply lookup_raises; try assumption.
       now rewrite Hafter. }
  destruct (remote_push G origin BRANCH_NAME r2) as [[[] | e4] r3] eqn:Hp.
  - cbn. discriminate.
  - intros _. exists e4, PUSH. apply push_raises with (origin := origin);
      try assumption; rewrite Hafter; [exact Hl | now rewrite Hp].
Qed.

(** X4. A publish reports success if and only if all four GitPython
    calls returned normally: staging, the commit, the remote lookup and
    the push. The success line is printed in that case and in no other;
    in every other case a step raised, and what is printed instead is
    the error prefix followed by [str(e)] for the exception [e] of that
    step. *)
Theorem success_iff_all_calls_return (w : World G) :
  succeeded (publish_outcome G w)
  = add_ok G w && commit_ok G w && lookup_ok G w && push_ok G w /\
  (stdout (snd (stage_commit_and_push G w)) = stdout w ++ [SUCCESS_LINE]
   <-> add_ok G w && commit_ok G w && lookup_ok G w && push_ok G w = true) /\
  (add_ok G w && commit_ok G w && lookup_ok G w && push_ok G w = false ->
   exists (e : Exception) (s : Step),
     StepRaises G w e s /\
     stdout (snd (stage_commit_and_push G w))
     = stdout w ++ [("Error al subir cambios: " ++ exc_str e)%string]).
Proof.
  assert (Hs : succeeded (publish_outcome G w)
               = add_ok G w && commit_ok G w && lookup_ok G w && push_ok G w).
  { unfold publish_outcome, push_ok, lookup_ok, commit_ok, add_ok,
      after_commit, after_add.
    rewrite try_suite_run.
    destruct (git_add_A G (repo w)) as [[[] | e1] r1]; [| reflexivity].
    cbn [fst snd is_ok andb].
    destruct (index_commit G COMMIT_MESSAGE r1) as [[[] | e2] r2];
      [| reflexivity].
    cbn [fst snd is_ok andb].
    destruct (repo_remote G GITHUB_REMOTE r2) as [origin | e3]; [| reflexivity].
    cbn [fst snd is_ok andb].
    destruct (remote_push G origin BRANCH_NAME r2) as [[[] | e4] r3];
      reflexivity. }
  split; [exact Hs |]. split.
  - rewrite <- Hs, stage_commit_and_push_logs.
    unfold publish_outcome.
    destruct (fst (try_suite G w)) as [[] | e];
      cbn [succeeded logged errorMessage].
    + split; reflexivity.
    + split; [| discriminate].
      intro H. apply app_inv_head in H. injection H as H.
      cbn in H. discriminate H.
  - rewrite <- Hs. intro Hfail.
    destruct (failed_publish_step w Hfail) as [e [s Hstep]].
    exists e, s. split; [exact Hstep |].
    destruct (try_suite_raises G w e s Hstep) as [new [Hres _]].
    rewrite stage_commit_and_push_logs. unfold publish_outcome.
    now rewrite Hres.
Qed.







(** X6. With a stage step and a commit step that always return, where
    staging and pushing leave the local history alone and a commit
    records itself, the history after any sequence of events is the
    history before with one commit on top for every event that reached
    the publisher, all with the fixed message, whether the pushes
    succeeded or not: while the remote is out of reach the commits pile
    up locally. *)
Theorem commits_pile_up (events : list FileSystemEvent) (w : World G) :
  commit_records G ->
  push_keeps_history G ->
  add_keeps_history G ->
  stage_and_commit_total G ->
  history G (repo (snd (dispatch_events G events w)))
  = repeat COMMIT_MESSAGE (List.length (filter triggers events))
    ++ history G (repo w).
Proof.
  intros Hrec Hkeep Hadd Htotal.
  revert w. induction events as [| event rest IH]; intro w; [reflexivity |].
  rewrite dispatch_events_cons, IH. cbn [filter].
  destruct (triggers event) eqn:Ht.
  - rewrite (dispatch_trigger G event w Ht).
    set (w1 := snd (print ("Archivo modificado: " ++ src_path event) w)).
    assert (Hok1 : add_ok G w1 = true) by apply Htotal.
    assert (Hok2 : commit_ok G w1 = true) by apply Htotal.
    destruct (publish_keeps_commit G w1 Hrec Hkeep Hok1 Hok2) as [H1 H2].
    rewrite H1, H2. unfold after_add. rewrite Hadd.
    subst w1. unfold print. cbn [snd repo List.length repeat].
    rewrite repeat_cons, <- app_assoc. reflexivity.
  - now rewrite (dispatch_skip G event w Ht).
Qed.

End Accounts.

Section AccountRuns.

Import AutoGitCommit Publisher Accounting SimpleGit.

Lemma simple_add_keeps_history (disk : string -> option State) :
  add_keeps_history (git disk).
Proof.
  intro r. reflexivity.
Qed.

Lemma simple_stage_and_commit_total (disk : string -> option State) :
  stage_and_commit_total (git disk).
Proof.
  intro r. split; [reflexivity | intro message; reflexivity].
Qed.

(** X6 with the remote out of reach: two edits, two commits kept
    locally. *)
Lemma commits_pile_up_witness :
  history (git no_disk)
    (repo (snd (dispatch_events (git no_disk)
                  [modified_file "src/a.py"; modified_file "src/b.py"]
                  (world (two_dirty false)))))
  = [COMMIT_MESSAGE; COMMIT_MESSAGE; "Initial commit"%string].
Proof.
  exact (commits_pile_up (git no_disk)
           [modified_file "src/a.py"; modified_file "src/b.py"]
           (world (two_dirty false))
           (simple_commit_records no_disk) (simple_push_keeps_history no_disk)
           (simple_add_keeps_history no_disk)
           (simple_stage_and_commit_total no_disk)).
Defined.

End AccountRuns.

(** ** The console program *)

Section ConsoleProgram.

Import Calculadora Consola Accounting.

Variable float_of_string : string -> option float.
Variable format_2f : float -> string.

Lemma obtener_entrada_from_bad (mensaje : string) (bad tail : list string)
    (out : list Output) :
  Forall (fun line => float_of_string line = None) bad ->
  obtener_entrada_from float_of_string mensaje (bad ++ tail) out
  = obtener_entrada_from float_of_string mensaje tail
      (out ++ flat_map (fun _ => [Prompt mensaje; INVALID_NUMBER]) bad).
Proof.
  intro Hbad. revert out.
  induction Hbad as [| line bad Hline Hbad IH]; intro out.
  - cbn. now rewrite app_nil_r.
  - cbn [app obtener_entrada_from flat_map]. rewrite Hline, IH.
    f_equal. unfold INVALID_NUMBER. now rewrite <- !app_assoc.
Qed.

(** X8. [obtener_entrada] returns the first line of the input that
    [float] accepts: the lines before it are each answered with the
    request for a valid number and a new prompt, the lines after it are
    left unread. When no line is accepted it asks until the input ends
    and raises [EOFError]. *)
Theorem obtener_entrada_first_valid (mensaje : string) (bad : list string)
    (out : list Output) :
  Forall (fun line => float_of_string line = None) bad ->
  (forall (good : string) (valor : float) (rest : list string),
     float_of_string good = Some valor ->
     obtener_entrada float_of_string mensaje (mkConsole (bad ++ good :: rest) out)
     = (Ok valor, mkConsole rest (out ++ asked mensaje bad))) /\
  obtener_entrada float_of_string mensaje (mkConsole bad out)
  = (Raise EOFError, mkConsole [] (out ++ asked mensaje bad)).
Proof.
  intro Hbad. unfold obtener_entrada, asked. cbn [stdin stdout]. split.
  - intros good valor rest Hgood.
    rewrite (obtener_entrada_from_bad mensaje bad (good :: rest) out Hbad).
    cbn [obtener_entrada_from]. rewrite Hgood. now rewrite <- app_assoc.
  - rewrite <- (app_nil_r bad) at 1.
    rewrite (obtener_entrada_from_bad mensaje bad [] out Hbad).
    cbn [obtener_entrada_from]. now rewrite <- app_assoc.
Qed.

Lemma reads_trans (c1 c2 c3 : Console) :
  reads c1 c2 -> reads c2 c3 -> reads c1 c3.
Proof.
  intros [a Ha] [b Hb]. exists (a ++ b). now rewrite Ha, Hb, app_assoc.
Qed.

Lemma reads_length (c c' : Console) :
  reads c c' -> List.length (stdin c') <= List.length (stdin c).
Proof.
  intros [a Ha]. rewrite Ha, length_app. lia.
Qed.

Lemma reads_In (c c' : Console) (line : string) :
  reads c c' -> In line (stdin c') -> In line (stdin c).
Proof.
  intros [a Ha] Hin. rewrite Ha. apply in_or_app. now right.
Qed.

Lemma obtener_entrada_facts (mensaje : string) (c c' : Console) (r : Res float) :
  obtener_entrada float_of_string mensaje c = (r, c') ->
  reads c c' /\
  match r with
  | Ok valor =>
      List.length (stdin c') < List.length (stdin c)
      /\ exists line, In line (stdin c) /\ float_of_string line = Some valor
  | Raise e => e = EOFError
  end.
Proof.
  unfold obtener_entrada. destruct c as [lines out]. cbn [stdin stdout].
  revert out. induction lines as [| line rest IH]; intros out H.
  - cbn in H. injection H as <- <-. split; [now exists [] | reflexivity].
  - cbn [obtener_entrada_from] in H.
    destruct (float_of_string line) as [valor |] eqn:Hline.
    + injection H as <- <-. cbn [stdin]. split; [now exists [line] |].
      split; [cbn; lia |]. exists line. split; [now left | exact Hline].
    + destruct (IH _ H) as [[consumed Hc] Hr]. cbn [stdin] in *. split.
      * exists (line :: consumed). cbn. now rewrite Hc.
      * destruct r as [valor | e]; [| exact Hr].
        destruct Hr as [Hlen [l [Hin Hl]]]. split; [cbn; lia |].
        exists l. split; [now right | exact Hl].
Qed.

Lemma two_inputs_facts (m1 m2 tipo : string) (c c' : Console)
    (r : Res (string * float * float)) :
  (valor1 <- obtener_entrada float_of_string m1 ;; valor2 <- obtener_entrada float_of_string m2 ;;
   Consola.ret (tipo, valor1, valor2)) c = (r, c') ->
  reads c c' /\
  match r with
  | Ok (t, _, valor2) =>
      t = tipo /\
      exists line, In line (stdin c) /\ float_of_string line = Some valor2
  | Raise e => e = EOFError
  end.
Proof.
  unfold bind, Consola.ret.
  destruct (obtener_entrada float_of_string m1 c) as [[valor1 | e1] c1] eqn:H1;
    apply obtener_entrada_facts in H1; destruct H1 as [Hr1 H1].
  - destruct (obtener_entrada float_of_string m2 c1) as [[valor2 | e2] c2] eqn:H2;
      apply obtener_entrada_facts in H2; destruct H2 as [Hr2 H2];
      intro H; injection H as <- <-;
      (split; [now apply reads_trans with (c2 := c1) |]).
    + split; [reflexivity |]. destruct H2 as [_ [line [Hin Hl]]].
      exists line. split; [now apply (reads_In c c1 line Hr1) | exact Hl].
    + exact H2.
  - intro H. injection H as <- <-. split; [exact Hr1 | exact H1].
Qed.

Lemma calcular_opcion_facts (opcion : string) (c c' : Console) (r : Res unit) :
  calcular_opcion float_of_string format_2f opcion c = (r, c') ->
  reads c c' /\
  match r with
  | Ok _ => True
  | Raise e => e = EOFError \/ (e = ZERO_DIVISION /\ zero_line float_of_string (stdin c))
  end.
Proof.
  unfold calcular_opcion. unfold bind at 1.
  match goal with
  | |- context [match ?m c with _ => _ end] =>
      destruct (m c) as [[[[t valor1] valor2] | e] c1] eqn:Hargs
  end.
  - assert (Hfacts : reads c c1 /\
              (t = "voltaje"%string \/ t = "corriente"%string
               \/ t = "resistencia"%string) /\
              exists line, In line (stdin c)
                           /\ float_of_string line = Some valor2).
    { destruct (String.eqb opcion "1");
        [| destruct (String.eqb opcion "2")];
        apply two_inputs_facts in Hargs;
        destruct Hargs as [Hr [-> Hl]]; repeat split; auto. }
    destruct Hfacts as [Hr [Ht [line [Hin Hl]]]].
    unfold bind, lift, print.
    destruct Ht as [-> | [-> | ->]];
      cbn [crear_calculadora String.eqb Ascii.eqb Bool.eqb calcular float_mul].
    + intro H. injection H as <- <-. split; [exact Hr | exact I].
    + unfold float_truediv.
      destruct (PrimFloat.eqb valor2 PrimFloat.zero) eqn:Hz;
        intro H; injection H as <- <-; (split; [exact Hr |]); [| exact I].
      right. split; [reflexivity |]. now exists line, valor2.
    + unfold float_truediv.
      destruct (PrimFloat.eqb valor2 PrimFloat.zero) eqn:Hz;
        intro H; injection H as <- <-; (split; [exact Hr |]); [| exact I].
      right. split; [reflexivity |]. now exists line, valor2.
  - assert (Hfacts : reads c c1 /\ e = EOFError).
    { destruct (String.eqb opcion "1");
        [| destruct (String.eqb opcion "2")];
        apply two_inputs_facts in Hargs; exact Hargs. }
    destruct Hfacts as [Hr ->].
    intro H. injection H as <- <-. split; [exact Hr | now left].
Qed.

(** One round of [main], by the line it reads. *)
Lemma iteration_unfold (lines : list string) (out : list Output) :
  iteration float_of_string format_2f (mkConsole lines out)
  = match lines with
    | [] => (Raise EOFError, mkConsole [] (out ++ MENU))
    | opcion :: rest =>
        if String.eqb opcion "4" then
          (Ok true, mkConsole rest (out ++ MENU ++ [GOODBYE]))
        else if existsb (String.eqb opcion) ["1"; "2"; "3"] then
          match calcular_opcion float_of_string format_2f opcion
                  (mkConsole rest (out ++ MENU)) with
          | (Ok _, c') => (Ok false, c')
          | (Raise e, c') => (Raise e, c')
          end
        else (Ok false, mkConsole rest (out ++ MENU ++ [INVALID_OPTION]))
    end.
Proof.
  unfold iteration, mostrar_menu, bind, print, input, Consola.ret.
  cbn [stdin stdout].
  assert (Hout : ((((((out ++ [Line (NEWLINE ++ "Calculadora de la Ley de Ohm")])
                      ++ [Line "1. Calcular Voltaje"])
                     ++ [Line "2. Calcular Corriente"])
                    ++ [Line "3. Calcular Resistencia"])
                   ++ [Line "4. Salir"])
                  ++ [Prompt "Seleccione una opción (1-4): "])
                 = out ++ MENU).
  { unfold MENU. now rewrite <- !app_assoc. }
  rewrite Hout. destruct lines as [| opcion rest]; [reflexivity |].
  cbn [stdin stdout].
  destruct (String.eqb opcion "4").
  - unfold GOODBYE. cbn [stdin stdout]. now rewrite <- app_assoc.
  - destruct (existsb (String.eqb opcion) ["1"; "2"; "3"]).
    + now destruct (calcular_opcion float_of_string format_2f opcion _)
        as [[[] | e] c'].
    + unfold INVALID_OPTION. cbn [stdin stdout]. now rewrite <- app_assoc.
Qed.

Lemma iteration_facts (c c' : Console) (r : Res bool) :
  iteration float_of_string format_2f c = (r, c') ->
  reads c c' /\
  match r with
  | Ok true => exists rest, stdin c = "4"%string :: rest /\ stdin c' = rest
  | Ok false => List.length (stdin c') < List.length (stdin c)
  | Raise e =>
      e = EOFError \/ (e = ZERO_DIVISION /\ zero_line float_of_string (stdin c))
  end.
Proof.
  destruct c as [lines out]. rewrite iteration_unfold.
  destruct lines as [| opcion rest].
  - intro H. injection H as <- <-. split; [now exists [] | now left].
  - destruct (String.eqb_spec opcion "4") as [-> | Hne].
    + intro H. injection H as <- <-. split; [now exists ["4"%string] |].
      now exists rest.
    + assert (Hone : reads (mkConsole (opcion :: rest) out)
                           (mkConsole rest (out ++ MENU)))
        by now exists [opcion].
      destruct (existsb (String.eqb opcion) ["1"; "2"; "3"]).
      * destruct (calcular_opcion float_of_string format_2f opcion
                    (mkConsole rest (out ++ MENU))) as [[[] | e] c1] eqn:Hc;
          apply calcular_opcion_facts in Hc; destruct Hc as [Hr Hc];
          intro H; injection H as <- <-;
          (split; [exact (reads_trans _ _ _ Hone Hr) |]).
        -- apply reads_length in Hr. cbn [stdin List.length] in *. lia.
        -- destruct Hc as [-> | [-> [line [x [Hin Hz]]]]]; [now left | right].
           split; [reflexivity |]. exists line, x.
           split; [now right | exact Hz].
      * intro H. injection H as <- <-. split; [now exists [opcion] |].
        cbn. lia.
Qed.

Lemma main_loop_facts (fuel : nat) (c : Console) :
  List.length (stdin c) < fuel ->
  exists (r : Res unit) (c' : Console),
    main_loop float_of_string format_2f fuel c = Some (r, c') /\
    reads c c' /\
    match r with
    | Ok _ => In "4"%string (stdin c)
    | Raise e =>
        e = EOFError \/ (e = ZERO_DIVISION /\ zero_line float_of_string (stdin c))
    end.
Proof.
  revert c. induction fuel as [| fuel IH]; intros c Hlen; [lia |].
  cbn [main_loop].
  destruct (iteration float_of_string format_2f c) as [[[|] | e] c1] eqn:Hit;
    apply iteration_facts in Hit; destruct Hit as [Hr Hit].
  - exists (Ok tt), c1. split; [reflexivity |]. split; [exact Hr |].
    destruct Hit as [rest [Hc _]]. rewrite Hc. now left.
  - destruct (IH c1) as [r [c' [Hrun [Hr' Hres]]]]; [lia |].
    exists r, c'. split; [exact Hrun |].
    split; [exact (reads_trans _ _ _ Hr Hr') |].
    destruct r as [u | e].
    + now apply (reads_In c c1).
    + destruct Hres as [-> | [-> [line [x [Hin Hz]]]]]; [now left | right].
      split; [reflexivity |]. exists line, x.
      split; [now apply (reads_In c c1) | exact Hz].
  - exists (Raise e), c1. split; [reflexivity |]. split; [exact Hr | exact Hit].
Qed.


(** X10. The console program has no guard against a zero divisor:
    choosing option 2 or 3 and entering a voltage and then a value that
    [float] reads as zero ends [main] with [ZeroDivisionError], with no
    result line written and the rest of the input unread. *)
Theorem main_zero_division (v1 v2 : string) (rest : list string)
    (out : list Output) (a b : float) :
  float_of_string v1 = Some a ->
  float_of_string v2 = Some b ->
  PrimFloat.eqb b PrimFloat.zero = true ->
  main float_of_string format_2f (mkConsole ("2" :: v1 :: v2 :: rest) out)
  = Some (Raise ZERO_DIVISION,
          mkConsole rest
            (out ++ MENU ++ [Prompt "Ingrese el voltaje (en voltios): ";
                             Prompt "Ingrese la resistencia (en ohmios): "])) /\
  main float_of_string format_2f (mkConsole ("3" :: v1 :: v2 :: rest) out)
  = Some (Raise ZERO_DIVISION,
          mkConsole rest
            (out ++ MENU ++ [Prompt "Ingrese el voltaje (en voltios): ";
                             Prompt "Ingrese la corriente (en amperios): "])).
Proof.
  intros H1 H2 Hz. unfold main. cbn [main_loop stdin List.length].
  rewrite !iteration_unfold.
  cbn [String.eqb Ascii.eqb Bool.eqb existsb orb andb].
  unfold calcular_opcion, bind, obtener_entrada, lift, Consola.ret.
  cbn [String.eqb Ascii.eqb Bool.eqb stdin stdout obtener_entrada_from].
  rewrite H1. cbn [stdin stdout obtener_entrada_from]. rewrite H2.
  cbn [crear_calculadora String.eqb Ascii.eqb Bool.eqb calcular].
  unfold float_truediv. rewrite Hz. unfold ZERO_DIVISION.
  now rewrite <- !app_assoc.
Qed.

(** X11. A division by zero is the only way a number can end the
    program: when no line of the input is read by [float] as zero,
    [main] does not raise [ZeroDivisionError]; it ends normally or at
    the end of the input. *)
Theorem main_without_zero (c : Console) :
  Forall (fun line =>
            forall x, float_of_string line = Some x ->
                      PrimFloat.eqb x PrimFloat.zero = false) (stdin c) ->
  exists c' : Console,
    main float_of_string format_2f c = Some (Ok tt, c')
    \/ main float_of_string format_2f c = Some (Raise EOFError, c').
Proof.
  intro Hnz.
  destruct (main_loop_facts (S (List.length (stdin c))) c)
    as [r [c' [Hrun [_ Hres]]]]; [lia |].
  exists c'. unfold main. rewrite Hrun.
  destruct r as [[] | e]; [now left |].
  destruct Hres as [-> | [_ [line [x [Hin [Hl Hz]]]]]]; [now right |].
  rewrite Forall_forall in Hnz. rewrite (Hnz line Hin x Hl) in Hz.
  discriminate Hz.
Qed.

Lemma main_loop_junk (junk rest : list string) (out : list Output) (fuel : nat) :
  Forall (fun line => is_option line = false) junk ->
  List.length junk < fuel ->
  main_loop float_of_string format_2f fuel (mkConsole (junk ++ "4" :: rest) out)
  = Some (Ok tt,
          mkConsole rest
            (out ++ flat_map (fun _ => MENU ++ [INVALID_OPTION]) junk
                 ++ MENU ++ [GOODBYE])).
Proof.
  intro Hjunk. revert out fuel.
  induction Hjunk as [| line junk Hline Hjunk IH]; intros out fuel Hlen;
    (destruct fuel as [| fuel]; [cbn in Hlen; lia |]);
    cbn [main_loop app]; rewrite iteration_unfold.
  - cbn [String.eqb Ascii.eqb Bool.eqb flat_map app]. reflexivity.
  - unfold is_option in Hline. cbn [existsb] in Hline.
    apply orb_false_iff in Hline. destruct Hline as [H1 Hline].
    apply orb_false_iff in Hline. destruct Hline as [H2 Hline].
    apply orb_false_iff in Hline. destruct Hline as [H3 Hline].
    apply orb_false_iff in Hline. destruct Hline as [H4 _].
    rewrite H4. cbn [existsb]. rewrite H1, H2, H3. cbn [orb].
    rewrite IH by (cbn in Hlen; lia).
    cbn [flat_map]. now rewrite <- !app_assoc.
Qed.

(** X12. Lines that are not options of the menu change nothing but the
    output: each is answered with the menu, the prompt and the
    invalid-option line, and at the first [4] the program says goodbye
    and ends normally, leaving the lines after it unread. *)
Theorem main_invalid_options_then_quit (junk rest : list string)
    (out : list Output) :
  Forall (fun line => is_option line = false) junk ->
  main float_of_string format_2f (mkConsole (junk ++ "4" :: rest) out)
  = Some (Ok tt,
          mkConsole rest
            (out ++ flat_map (fun _ => MENU ++ [INVALID_OPTION]) junk
                 ++ MENU ++ [GOODBYE])).
Proof.
  intro Hjunk. unfold main. apply main_loop_junk; [exact Hjunk |].
  cbn [stdin]. rewrite length_app. lia.
Qed.

End ConsoleProgram.

Section ConsoleRuns.

Import Calculadora Consola Accounting.

(** X8 on the input [abc], [12], [4]. *)
Lemma obtener_entrada_first_valid_witness :
  obtener_entrada float_of_numeral "V: " (mkConsole ["abc"; "12"; "4"] [])
  = (Ok 12%float,
     mkConsole ["4"] [Prompt "V: "; INVALID_NUMBER; Prompt "V: "]).
Proof.
  apply (obtener_entrada_first_valid float_of_numeral "V: " ["abc"] []).
  - repeat constructor.
  - reflexivity.
Defined.

End ConsoleRuns.

(** ** The desktop application and the web view *)

Section DesktopAndWeb.

Import Calculadora Accounting.

Variable float_of_string : string -> option float.
Variable float_error : string -> string.
Variable format_2f : float -> string.

Lemma Desktop_crear_cases (tipo : string) :
  (Desktop.crear_calculadora tipo = Ok CalculadorVoltaje /\ tipo = "Voltaje"%string)
  \/ (Desktop.crear_calculadora tipo = Ok CalculadorCorriente
      /\ tipo = "Corriente"%string)
  \/ (Desktop.crear_calculadora tipo = Ok CalculadorResistencia
      /\ tipo = "Resistencia"%string)
  \/ (Desktop.crear_calculadora tipo
      = Raise (ValueError "Tipo de calculadora no válido")
      /\ tipo <> "Voltaje"%string /\ tipo <> "Corriente"%string
      /\ tipo <> "Resistencia"%string).
Proof.
  unfold Desktop.crear_calculadora.
  destruct (String.eqb_spec tipo "Voltaje") as [-> | H1]; [now left |].
  destruct (String.eqb_spec tipo "Corriente") as [-> | H2];
    [right; now left |].
  destruct (String.eqb_spec tipo "Resistencia") as [-> | H3];
    [right; right; now left |].
  right. right. right. repeat split; assumption.
Qed.

(** What the [try] suite of the desktop [calcular] comes to: a text that
    starts with one of the three types, a [ValueError], or the
    [ZeroDivisionError] of a division. *)
Lemma calcular_suite_cases (self : Aplicacion.AplicacionLeyOhm) :
  match Aplicacion.calcular_suite float_of_string float_error format_2f self with
  | Ok text =>
      exists tail : string,
        (text = "Voltaje: " ++ tail \/ text = "Corriente: " ++ tail
         \/ text = "Resistencia: " ++ tail)%string
  | Raise e => is_ValueError e = true \/ e = ZERO_DIVISION
  end.
Proof.
  unfold Aplicacion.calcular_suite, Aplicacion.and_then, Aplicacion.float_str.
  destruct (float_of_string (Aplicacion.entrada1 self)) as [a |]; [| now left].
  destruct (float_of_string (Aplicacion.entrada2 self)) as [b |]; [| now left].
  destruct (Desktop_crear_cases (Aplicacion.tipo_calculo self))
    as [[-> ->] | [[-> ->] | [[-> ->] | [-> _]]]]; [| | | now left].
  - cbn. eexists. left. reflexivity.
  - cbn [calcular]. unfold float_truediv.
    destruct (PrimFloat.eqb b PrimFloat.zero); [now right |].
    cbn. eexists. right. left. reflexivity.
  - cbn [calcular]. unfold float_truediv.
    destruct (PrimFloat.eqb b PrimFloat.zero); [now right |].
    cbn. eexists. right. right. reflexivity.
Qed.

(** X13. In the desktop application a type that is none of the three,
    typed into the combobox, is reported as a number error: the result
    label reads "Error: Ingrese valores numéricos válidos" however
    valid the two entries are, and the message of the factory is never
    shown, caught as it is by the handler meant for [float]. *)
Theorem desktop_type_error_hidden (self : Aplicacion.AplicacionLeyOhm) :
  (Aplicacion.tipo_calculo self <> "Voltaje"%string ->
   Aplicacion.tipo_calculo self <> "Corriente"%string ->
   Aplicacion.tipo_calculo self <> "Resistencia"%string ->
   Aplicacion.resultado
     (Aplicacion.calcular float_of_string float_error format_2f self)
   = "Error: Ingrese valores numéricos válidos"%string) /\
  Aplicacion.resultado
    (Aplicacion.calcular float_of_string float_error format_2f self)
  <> "Error: Tipo de calculadora no válido"%string.
Proof.
  split.
  - intros H1 H2 H3.
    unfold Aplicacion.calcular, Aplicacion.calcular_suite, Aplicacion.and_then,
      Aplicacion.float_str.
    destruct (float_of_string (Aplicacion.entrada1 self)) as [a |];
      [| reflexivity].
    destruct (float_of_string (Aplicacion.entrada2 self)) as [b |];
      [| reflexivity].
    destruct (Desktop_crear_cases (Aplicacion.tipo_calculo self))
      as [[_ H] | [[_ H] | [[_ H] | [-> _]]]]; try contradiction.
    reflexivity.
  - unfold Aplicacion.calcular.
    pose proof (calcular_suite_cases self) as Hc.
    destruct (Aplicacion.calcular_suite float_of_string float_error format_2f self)
      as [text | e].
    + destruct Hc as [tail [-> | [-> | ->]]]; cbn; discriminate.
    + destruct Hc as [-> | ->]; cbn; discriminate.
Qed.

(** X14. In the desktop application a zero divisor does not end the
    program: with two valid entries, the second read as zero, the types
    Corriente and Resistencia show "Error: float division by zero" in
    the result label, and the type Voltaje shows its product. *)
Theorem desktop_zero_divisor (self : Aplicacion.AplicacionLeyOhm) (a b : float) :
  float_of_string (Aplicacion.entrada1 self) = Some a ->
  float_of_string (Aplicacion.entrada2 self) = Some b ->
  PrimFloat.eqb b PrimFloat.zero = true ->
  let shown :=
    Aplicacion.resultado
      (Aplicacion.calcular float_of_string float_error format_2f self) in
  (Aplicacion.tipo_calculo self = "Corriente"%string
   \/ Aplicacion.tipo_calculo self = "Resistencia"%string ->
   shown = "Error: float division by zero"%string) /\
  (Aplicacion.tipo_calculo self = "Voltaje"%string ->
   shown = ("Voltaje: " ++ format_2f (PrimFloat.mul a b) ++ " V")%string).
Proof.
  intros Ha Hb Hz shown. subst shown.
  unfold Aplicacion.calcular, Aplicacion.calcular_suite, Aplicacion.and_then,
    Aplicacion.float_str.
  rewrite Ha, Hb. split.
  - intros [-> | ->]; cbn [Desktop.crear_calculadora String.eqb Ascii.eqb
                             Bool.eqb calcular];
      unfold float_truediv; rewrite Hz; reflexivity.
  - intros ->. reflexivity.
Qed.

(** X15. The web view answers 405 to every method but POST, and 400
    only for an unknown type, with the message of the factory; the
    answer 200 carries a result and comes only for one of the three
    lowercase types. *)
Theorem view_answers (request : Vista.HttpRequest) (response : Vista.JsonResponse) :
  Vista.calcular float_of_string float_error format_2f request = Ok response ->
  (Vista.method request <> "POST"%string /\
   response = Vista.mkJsonResponse 405 "error" "Método no permitido")
  \/ (Vista.method request = "POST"%string /\
      response = Vista.mkJsonResponse 400 "error" "Tipo de calculadora no válido" /\
      Vista.POST_get request "tipo" <> Some "voltaje"%string /\
      Vista.POST_get request "tipo" <> Some "corriente"%string /\
      Vista.POST_get request "tipo" <> Some "resistencia"%string)
  \/ (Vista.method request = "POST"%string /\
      Vista.status response = 200%Z /\ Vista.key response = "resultado"%string /\
      (Vista.POST_get request "tipo" = Some "voltaje"%string
       \/ Vista.POST_get request "tipo" = Some "corriente"%string
       \/ Vista.POST_get request "tipo" = Some "resistencia"%string)).
Proof.
  unfold Vista.calcular.
  destruct (String.eqb_spec (Vista.method request) "POST") as [Hm | Hm].
  - unfold Aplicacion.and_then.
    destruct (Vista.float_param float_of_string float_error request "valor1")
      as [a | e1]; [| discriminate].
    destruct (Vista.float_param float_of_string float_error request "valor2")
      as [b | e2]; [| discriminate].
    unfold Vista.crear_calculadora_tipo.
    destruct (Vista.POST_get request "tipo") as [tipo |].
    + unfold crear_calculadora.
      destruct (String.eqb_spec tipo "voltaje") as [-> | H1].
      * cbn. intro H. injection H as <-. right. right. repeat split; auto.
      * destruct (String.eqb_spec tipo "corriente") as [-> | H2].
        -- cbn [calcular]. unfold float_truediv.
           destruct (PrimFloat.eqb b PrimFloat.zero); cbn; [discriminate |].
           intro H. injection H as <-. right. right. repeat split; auto.
        -- destruct (String.eqb_spec tipo "resistencia") as [-> | H3].
           ++ cbn [calcular]. unfold float_truediv.
              destruct (PrimFloat.eqb b PrimFloat.zero); cbn; [discriminate |].
              intro H. injection H as <-. right. right. repeat split; auto.
           ++ cbn. intro H. injection H as <-. right. left.
              repeat split; auto; congruence.
    + cbn. intro H. injection H as <-. right. left.
      repeat split; auto; discriminate.
  - intro H. injection H as <-. left. split; [exact Hm | reflexivity].
Qed.

(** X16. In the web view the conversion of the two values stands before
    the [try]: a value that is sent and is no number makes the view
    raise [ValueError] instead of answering 400, whatever the type. *)
Theorem view_bad_number_escapes (request : Vista.HttpRequest) (s : string) :
  Vista.method request = "POST"%string ->
  float_of_string s = None ->
  (Vista.POST_get request "valor1" = Some s ->
   Vista.calcular float_of_string float_error format_2f request
   = Raise (ValueError (float_error s))) /\
  (Vista.POST_get request "valor1" = None ->
   Vista.POST_get request "valor2" = Some s ->
   Vista.calcular float_of_string float_error format_2f request
   = Raise (ValueError (float_error s))).
Proof.
  intros Hm Hs. unfold Vista.calcular, Aplicacion.and_then, Vista.float_param,
    Aplicacion.float_str.
  rewrite Hm. cbn [String.eqb Ascii.eqb Bool.eqb]. split.
  - intros ->. now rewrite Hs.
  - intros -> ->. now rewrite Hs.
Qed.

(** X17. In the web view a division by zero is not answered but raised:
    for the types corriente and resistencia a second value that is zero,
    or that is not sent and so defaults to zero, makes the view raise
    [ZeroDivisionError], which its handler does not catch. *)
Theorem view_zero_divisor_escapes (request : Vista.HttpRequest) (a b : float) :
  Vista.method request = "POST"%string ->
  Vista.POST_get request "tipo" = Some "corriente"%string
  \/ Vista.POST_get request "tipo" = Some "resistencia"%string ->
  Vista.float_param float_of_string float_error request "valor1" = Ok a ->
  (Vista.float_param float_of_string float_error request "valor2" = Ok b ->
   PrimFloat.eqb b PrimFloat.zero = true ->
   Vista.calcular float_of_string float_error format_2f request
   = Raise ZERO_DIVISION) /\
  (Vista.POST_get request "valor2" = None ->
   Vista.calcular float_of_string float_error format_2f request
   = Raise ZERO_DIVISION).
Proof.
  intros Hm Ht Ha.
  assert (Hzero : forall b0,
            Vista.float_param float_of_string float_error request "valor2" = Ok b0 ->
            PrimFloat.eqb b0 PrimFloat.zero = true ->
            Vista.calcular float_of_string float_error format_2f request
            = Raise ZERO_DIVISION).
  { intros b0 Hb Hz. unfold Vista.calcular, Aplicacion.and_then.
    rewrite Hm, Ha, Hb. cbn [String.eqb Ascii.eqb Bool.eqb].
    unfold Vista.crear_calculadora_tipo.
    destruct Ht as [-> | ->];
      cbn [crear_calculadora String.eqb Ascii.eqb Bool.eqb calcular];
      unfold float_truediv; rewrite Hz; reflexivity. }
  split; [apply Hzero |].
  intro Hnone. apply (Hzero PrimFloat.zero); [| reflexivity].
  unfold Vista.float_param. now rewrite Hnone.
Qed.

End DesktopAndWeb.

(** ** Runs of the three programs *)

Section ProgramRuns.

Import Calculadora Consola Accounting.

(** X10 on the session [2], [12], [0]: the program ends in the
    division and never reads the [4]. *)
Lemma main_zero_division_witness :
  main float_of_numeral (fun _ => "3.00"%string)
    (mkConsole ["2"; "12"; "0"; "4"] [])
  = Some (Raise ZERO_DIVISION,
          mkConsole ["4"]
            (MENU ++ [Prompt "Ingrese el voltaje (en voltios): ";
                      Prompt "Ingrese la resistencia (en ohmios): "])).
Proof.
  exact (proj1 (main_zero_division float_of_numeral (fun _ => "3.00"%string)
                  "12" "0" ["4"] [] 12%float 0%float
                  eq_refl eq_refl eq_refl)).
Defined.

(** X11 on the session [1], [12], [4], [4]: a voltage, then goodbye. *)
Lemma main_without_zero_witness :
  exists c' : Console,
    main float_of_numeral (fun _ => "48.00"%string)
      (mkConsole ["1"; "12"; "4"; "4"] []) = Some (Ok tt, c')
    \/ main float_of_numeral (fun _ => "48.00"%string)
         (mkConsole ["1"; "12"; "4"; "4"] []) = Some (Raise EOFError, c').
Proof.
  apply (main_without_zero float_of_numeral (fun _ => "48.00"%string)
           (mkConsole ["1"; "12"; "4"; "4"] [])).
  repeat constructor; intros x H; vm_compute in H;
    first [discriminate H | injection H as <-; reflexivity].
Defined.

(** X12 on the session [x], [7], [4], [1]. *)
Lemma main_invalid_options_then_quit_witness :
  main float_of_numeral (fun _ => "3.00"%string)
    (mkConsole ["x"; "7"; "4"; "1"] [])
  = Some (Ok tt,
          mkConsole ["1"]
            ((MENU ++ [INVALID_OPTION]) ++ (MENU ++ [INVALID_OPTION])
             ++ MENU ++ [GOODBYE])).
Proof.
  apply (main_invalid_options_then_quit float_of_numeral
           (fun _ => "3.00"%string) ["x"; "7"] ["1"] []).
  repeat constructor.
Defined.

(** A window of the desktop application and a POST of the web client. *)
Lemma desktop_type_error_hidden_witness :
  Aplicacion.resultado
    (Aplicacion.calcular float_of_numeral (fun s => s) (fun _ => "3.00"%string)
       (Aplicacion.mkAplicacion "voltaje" "Corriente (A):" "12"
          "Resistencia (Ω):" "4" ""))
  = "Error: Ingrese valores numéricos válidos"%string.
Proof.
  apply (desktop_type_error_hidden float_of_numeral (fun s => s)
           (fun _ => "3.00"%string)
           (Aplicacion.mkAplicacion "voltaje" "Corriente (A):" "12"
              "Resistencia (Ω):" "4" "")); discriminate.
Defined.

Lemma desktop_zero_divisor_witness :
  Aplicacion.resultado
    (Aplicacion.calcular float_of_numeral (fun s => s) (fun _ => "3.00"%string)
       (Aplicacion.mkAplicacion "Corriente" "Voltaje (V):" "12"
          "Resistencia (Ω):" "0" ""))
  = "Error: float division by zero"%string.
Proof.
  apply (desktop_zero_divisor float_of_numeral (fun s => s)
           (fun _ => "3.00"%string)
           (Aplicacion.mkAplicacion "Corriente" "Voltaje (V):" "12"
              "Resistencia (Ω):" "0" "") 12%float 0%float
           eq_refl eq_refl eq_refl).
  now left.
Defined.

Lemma view_answers_witness :
  Vista.calcular float_of_numeral (fun s => s) (fun _ => "3.00"%string)
    (post (Some "Voltaje"%string) (Some "12"%string) (Some "4"%string))
  = Ok (Vista.mkJsonResponse 400 "error" "Tipo de calculadora no válido") /\
  Vista.POST_get (post (Some "Voltaje"%string) (Some "12"%string) (Some "4"%string))
    "tipo" <> Some "voltaje"%string.
Proof.
  assert (H : Vista.calcular float_of_numeral (fun s => s) (fun _ => "3.00"%string)
                (post (Some "Voltaje"%string) (Some "12"%string) (Some "4"%string))
              = Ok (Vista.mkJsonResponse 400 "error" "Tipo de calculadora no válido"))
    by reflexivity.
  split; [exact H |].
  destruct (view_answers float_of_numeral (fun s => s) (fun _ => "3.00"%string)
              (post (Some "Voltaje"%string) (Some "12"%string) (Some "4"%string))
              (Vista.mkJsonResponse 400 "error" "Tipo de calculadora no válido") H)
    as [[Hm _] | [[_ [_ [Ht _]]] | [_ [Hs _]]]].
  - exfalso. apply Hm. reflexivity.
  - exact Ht.
  - discriminate Hs.
Defined.

Lemma view_bad_number_escapes_witness :
  Vista.calcular float_of_numeral (fun s => s) (fun _ => "3.00"%string)
    (post (Some "voltaje"%string) (Some "doce"%string) (Some "4"%string))
  = Raise (ValueError "doce").
Proof.
  exact (proj1 (view_bad_number_escapes float_of_numeral (fun s => s)
                  (fun _ => "3.00"%string)
                  (post (Some "voltaje"%string) (Some "doce"%string)
                        (Some "4"%string))
                  "doce" eq_refl eq_refl) eq_refl).
Defined.

Lemma view_zero_divisor_escapes_witness :
  Vista.calcular float_of_numeral (fun s => s) (fun _ => "3.00"%string)
    (post (Some "corriente"%string) (Some "12"%string) None)
  = Raise ZERO_DIVISION.
Proof.
  exact (proj2 (view_zero_divisor_escapes float_of_numeral (fun s => s)
                  (fun _ => "3.00"%string)
                  (post (Some "corriente"%string) (Some "12"%string) None)
                  12%float 0%float eq_refl (or_introl eq_refl) eq_refl)
               eq_refl).
Defined.

End ProgramRuns.

(** ** The path of an event and the publish it starts *)

Section EventPath.

Import AutoGitCommit Publisher.

Variable G : GitPython.

(** A publish looks at the repository only: worlds with the same
    repository and the same calls so far leave the same repository and
    the same calls, and report the same outcome. *)
Lemma stage_commit_and_push_repo_only (w1 w2 : World G) :
  repo w1 = repo w2 -> calls w1 = calls w2 ->
  repo (snd (stage_commit_and_push G w1)) = repo (snd (stage_commit_and_push G w2))
  /\ calls (snd (stage_commit_and_push G w1))
     = calls (snd (stage_commit_and_push G w2))
  /\ publish_outcome G w1 = publish_outcome G w2.
Proof.
  intros Hrepo Hcalls.
  unfold publish_outcome, stage_commit_and_push, try_except, print.
  rewrite !try_suite_run, Hrepo, Hcalls.
  destruct (git_add_A G (repo w2)) as [[[] | e1] r1]; [| now repeat split].
  destruct (index_commit G COMMIT_MESSAGE r1) as [[[] | e2] r2];
    [| now repeat split].
  destruct (repo_remote G GITHUB_REMOTE r2) as [origin | e3];
    [| now repeat split].
  destruct (remote_push G origin BRANCH_NAME r2) as [[[] | e4] r3];
    now repeat split.
Qed.

(** X18. The path of an event decides whether a publish starts and is
    printed, and nothing else: two events that both reach the publisher
    leave, from the same world, the same repository, the same GitPython
    calls and the same outcome. The publish stages and commits whatever
    has changed, not the file of the event. *)
Theorem publish_ignores_event_path (e1 e2 : FileSystemEvent) (w : World G) :
  triggers e1 = true ->
  triggers e2 = true ->
  repo (snd (dispatch G e1 w)) = repo (snd (dispatch G e2 w)) /\
  calls (snd (dispatch G e1 w)) = calls (snd (dispatch G e2 w)) /\
  (exists outcome : string,
     stdout (snd (dispatch G e1 w))
     = stdout w ++ [("Archivo modificado: " ++ src_path e1)%string; outcome] /\
     stdout (snd (dispatch G e2 w))
     = stdout w ++ [("Archivo modificado: " ++ src_path e2)%string; outcome]).
Proof.
  intros H1 H2.
  set (w1 := snd (print ("Archivo modificado: " ++ src_path e1) w)).
  set (w2 := snd (print ("Archivo modificado: " ++ src_path e2) w)).
  destruct (stage_commit_and_push_repo_only w1 w2 eq_refl eq_refl)
    as [Hrepo [Hcalls Hout]].
  rewrite (dispatch_trigger G e1 w H1), (dispatch_trigger G e2 w H2).
  fold w1 w2. split; [exact Hrepo |]. split; [exact Hcalls |].
  exists (logged (publish_outcome G w2)).
  rewrite !stage_commit_and_push_logs, Hout. subst w1 w2.
  unfold print. cbn [snd stdout]. now rewrite <- !app_assoc.
Qed.

End EventPath.

Section EventPathRun.

Import AutoGitCommit Publisher SimpleGit.

(** X18 on the small repository: the event for [src/a.py] commits
    [src/b.py] as well. *)
Lemma publish_ignores_event_path_witness :
  commits (repo (snd (dispatch (git no_disk) (modified_file "src/a.py")
                        (world (two_dirty true)))))
  = commits (repo (snd (dispatch (git no_disk) (modified_file "src/b.py")
                          (world (two_dirty true))))).
Proof.
  exact (f_equal commits
           (proj1 (publish_ignores_event_path (git no_disk)
                     (modified_file "src/a.py") (modified_file "src/b.py")
                     (world (two_dirty true)) eq_refl eq_refl))).
Defined.

End EventPathRun.

(** ** The process from start to exit *)

Section ProcessProperties.

Import AutoGitCommit Publisher Process.

Variable G : GitPython.
Variable observer_schedule : string -> bool -> Res unit.
Variable observer_start : Res unit.
Variable interrupt_status : Z.






End ProcessProperties.

Section ProcessRuns.

Import AutoGitCommit Publisher Process SimpleGit.




End ProcessRuns.
